(** * Key-path extraction over parsed JSON

    A shallow embedding of the flattening code of
    [get_google_search_result.py] ([preprocess_to_dataframe]) and of
    [get_gbiz_info.py] ([GbizInfoFetcher._get_value_safely]), and the
    properties the specification states about them.

    Python values are a tagged union, [str] is a sequence of Unicode code
    points, exceptions are an explicit result type, and the [try]/[except]
    and [break] of the loop body are kept as they are written. *)

From Stdlib Require Import String Ascii.
From stdpp Require Import base numbers option list gmap.

Set Warnings "-register-all".
Local Open Scope Z_scope.

(** ** Python strings and the builtins the code calls on them *)

Module Py.

(** A [str] is a sequence of code points. *)
Definition pystr : Type := list N.

(** A literal written in ASCII. *)
Definition str (s : string) : pystr := N_of_ascii <$> list_ascii_of_string s.

(** What [str.isdigit] and [int] take from the interpreter.  Two columns
    of its Unicode character database: the decimal value of a character
    (general category Nd) and its digit value (Numeric_Type Digit or
    Decimal); the code is modelled over any table that obeys the three
    facts of the standard the proofs use.  And the limit on the number of
    digits [int] converts ([sys.get_int_max_str_digits()]: 4300 unless
    configured otherwise, 0 for no limit, which is also how an interpreter
    older than the limit behaves). *)
Class unicode_db := UnicodeDb {
  to_decimal : N → option N;
  to_digit : N → option N;
  max_str_digits : N;
  decimal_is_digit c d : to_decimal c = Some d → to_digit c = Some d;
  ascii_decimal c : (48 ≤ c ≤ 57)%N → to_decimal c = Some (c - 48)%N;
  ascii_not_digit c : (c < 128)%N → ¬ (48 ≤ c ≤ 57)%N → to_digit c = None
}.

(** The exceptions that can arise in the modelled code. *)
Inductive exn := KeyError | IndexError | TypeError | ValueError | AttributeError.

Inductive result (A : Type) :=
| Ok (a : A)
| Raise (e : exn).
Arguments Ok {A} a.
Arguments Raise {A} e.

#[global] Instance result_ret : MRet result := λ A a, Ok a.
#[global] Instance result_bind : MBind result := λ A B f m,
  match m with
  | Ok a => f a
  | Raise e => Raise e
  end.

(** [sep.join]'s inverse for a one-character separator: [s.split(sep)].
    Every occurrence of [sep] cuts; empty pieces are kept. *)
Fixpoint split (sep : N) (s : pystr) : list pystr :=
  match s with
  | [] => [[]]
  | c :: s' =>
      if (c =? sep)%N then [] :: split sep s'
      else match split sep s' with
           | piece :: pieces => (c :: piece) :: pieces
           | [] => [[c]]
           end
  end.

Section Builtins.
Context {ucd : unicode_db}.

(** [key.isdigit()]: at least one character, and every character has a
    digit value. *)
Definition isdigit (key : pystr) : bool :=
  match key with
  | [] => false
  | _ => forallb (λ c, bool_decide (is_Some (to_digit c))) key
  end.

(** The value of a sequence of decimal digits, most significant first. *)
Definition of_digits (ds : list N) : Z :=
  foldl (λ acc d, 10 * acc + Z.of_N d) 0 ds.

(** A literal with more digits than the limit allows; leading zeros
    count. *)
Definition too_long (key : pystr) : bool :=
  ((0 <? max_str_digits) && (max_str_digits <? N.of_nat (length key)))%N.

(** [int(key)] for a [key] made of digit characters only (no sign, blank
    or underscore), which is what the guard [key.isdigit()] leaves: the
    conversion reads the decimal value of each character and raises
    [ValueError] when one has none, and when the literal is longer than
    the limit. *)
Definition int (key : pystr) : result Z :=
  match key with
  | [] => Raise ValueError
  | _ => match mapM to_decimal key with
         | Some ds =>
             if too_long key then Raise ValueError else Ok (of_digits ds)
         | None => Raise ValueError
         end
  end.
End Builtins.

(** The code points below U+0100 of the Unicode character database:
    the ASCII digits are decimal digits, the superscripts U+00B2, U+00B3
    and U+00B9 have a digit value and no decimal value, no other character
    of that range has either.  Code points from U+0100 on are given no
    value, so this table describes the interpreter on Latin-1 text.  The
    limit of [int] is the default, 4300 digits. *)
Definition latin1_decimal (c : N) : option N :=
  if ((48 <=? c) && (c <=? 57))%N then Some (c - 48)%N else None.

Definition latin1_digit (c : N) : option N :=
  if ((48 <=? c) && (c <=? 57))%N then Some (c - 48)%N
  else if (c =? 178)%N then Some 2%N
  else if (c =? 179)%N then Some 3%N
  else if (c =? 185)%N then Some 1%N
  else None.

(** ** Parsed JSON *)

(** What [json] hands to the code: [None], [bool], [int], [float] (kept as
    its bit pattern, the code never computes with it), [str], [list] and
    [dict] with string keys in insertion order. *)
Inductive pyvalue :=
| VNone
| VBool (b : bool)
| VInt (z : Z)
| VFloat (bits : Z)
| VStr (s : pystr)
| VList (items : list pyvalue)
| VDict (entries : list (pystr * pyvalue)).

Definition isinstance_list (value : pyvalue) : bool :=
  match value with VList _ => true | _ => false end.

Definition isinstance_dict (value : pyvalue) : bool :=
  match value with VDict _ => true | _ => false end.

(** [items[i]] on a list: a negative index counts from the end, an index
    outside the list raises [IndexError]. *)
Definition list_getitem (items : list pyvalue) (i : Z) : result pyvalue :=
  let n := Z.of_nat (length items) in
  let j := if i <? 0 then i + n else i in
  if (0 <=? j) && (j <? n) then
    match items !! Z.to_nat j with
    | Some v => Ok v
    | None => Raise IndexError
    end
  else Raise IndexError.

(** [value[i]] with an [int] index. *)
Definition getitem (value : pyvalue) (i : Z) : result pyvalue :=
  match value with
  | VList items => list_getitem items i
  | VDict _ => Raise KeyError
  | _ => Raise TypeError
  end.

(** The binding of [key] in a [dict]. *)
Fixpoint dict_lookup (entries : list (pystr * pyvalue)) (key : pystr)
  : option pyvalue :=
  match entries with
  | [] => None
  | (k, v) :: entries' =>
      if decide (k = key) then Some v else dict_lookup entries' key
  end.

(** [value.get(key)]: the binding, or [None] when there is none. *)
Definition get (value : pyvalue) (key : pystr) : result pyvalue :=
  match value with
  | VDict entries => Ok (default VNone (dict_lookup entries key))
  | _ => Raise AttributeError
  end.

(** [d[key] = value] on a [dict]: an existing key keeps its place, a new
    one goes last. *)
Fixpoint dict_setitem (entries : list (pystr * pyvalue)) (key : pystr)
    (value : pyvalue) : list (pystr * pyvalue) :=
  match entries with
  | [] => [(key, value)]
  | (k, v) :: entries' =>
      if decide (k = key) then (k, value) :: entries'
      else (k, v) :: dict_setitem entries' key value
  end.

End Py.

(** ** [get_google_search_result.py]: [preprocess_to_dataframe] *)

Module GoogleSearch.
Import Py.

(** How one pass through the body of [for key in keys] ends: the loop goes
    on with a new [value], or [break] leaves it with [value]. *)
Inductive control :=
| Next (value : pyvalue)
| Break (value : pyvalue).

(** [except (KeyError, IndexError, TypeError)]. *)
Definition caught (e : exn) : bool :=
  match e with
  | KeyError | IndexError | TypeError => true
  | ValueError | AttributeError => false
  end.

(** A container access the loop performs: [value[i]] or [value.get(key)]. *)
Inductive access :=
| Subscript (value : pyvalue) (i : Z)
| Get (value : pyvalue) (key : pystr).

Section Extract.
Context {ucd : unicode_db}.

(** The statements under [try:]. *)
Definition body (value : pyvalue) (key : pystr) : result control :=
  if isdigit key && isinstance_list value then
    i ← int key; v ← getitem value i; Ok (Next v)
  else if isinstance_dict value then
    v ← get value key; Ok (Next v)
  else
    Ok (Break VNone).

(** The [try] statement: a caught exception sets [value = None] and
    leaves the loop, any other exception propagates. *)
Definition try_body (value : pyvalue) (key : pystr) : result control :=
  match body value key with
  | Raise e => if caught e then Ok (Break VNone) else Raise e
  | r => r
  end.

(** [for key in keys: ...], started with [value]. *)
Fixpoint for_keys (value : pyvalue) (keys : list pystr) : result pyvalue :=
  match keys with
  | [] => Ok value
  | key :: keys' =>
      match try_body value key with
      | Ok (Next v) => for_keys v keys'
      | Ok (Break v) => Ok v
      | Raise e => Raise e
      end
  end.

(** The value stored for one [key_path] of one [item]: the body of
    [for key_path in keys_to_extract] up to the assignment to
    [extracted_row].  The specification calls it [extract]. *)
Definition extract (item : pyvalue) (key_path : pystr) : result pyvalue :=
  for_keys item (split 46 key_path).

(** [for key_path in keys_to_extract: ...; extracted_row[key_path] = value]. *)
Fixpoint for_key_paths (item : pyvalue) (keys_to_extract : list pystr)
    (extracted_row : list (pystr * pyvalue))
  : result (list (pystr * pyvalue)) :=
  match keys_to_extract with
  | [] => Ok extracted_row
  | key_path :: rest =>
      value ← extract item key_path;
      for_key_paths item rest (dict_setitem extracted_row key_path value)
  end.

(** [for item in search_results: ...; processed_data.append(extracted_row)]. *)
Fixpoint for_items (search_results : list pyvalue)
    (keys_to_extract : list pystr)
    (processed_data : list (list (pystr * pyvalue)))
  : result (list (list (pystr * pyvalue))) :=
  match search_results with
  | [] => Ok processed_data
  | item :: rest =>
      extracted_row ← for_key_paths item keys_to_extract [];
      for_items rest keys_to_extract (processed_data ++ [extracted_row])
  end.

(** The rows handed to [pd.DataFrame]; the frame itself is not modelled. *)
Definition preprocess_to_dataframe (search_results : list pyvalue)
    (keys_to_extract : list pystr) : result (list (list (pystr * pyvalue))) :=
  for_items search_results keys_to_extract [].

(** The same loop, recording every container access it performs.  Branch
    by branch, what [body] touches: the subscript once [int] has returned,
    the [get] on a dict, nothing on the [else] branch. *)
Definition body_log (value : pyvalue) (key : pystr) : list access :=
  if isdigit key && isinstance_list value then
    match int key with
    | Ok i => [Subscript value i]
    | Raise _ => []
    end
  else if isinstance_dict value then [Get value key]
  else [].

(** The same loop once more, counting the passes through its body. *)
Fixpoint for_keys_passes (value : pyvalue) (keys : list pystr) : nat :=
  match keys with
  | [] => 0
  | key :: keys' =>
      S match try_body value key with
        | Ok (Next v) => for_keys_passes v keys'
        | _ => 0
        end
  end.

Fixpoint for_keys_log (value : pyvalue) (keys : list pystr) : list access :=
  match keys with
  | [] => []
  | key :: keys' =>
      body_log value key ++
      match try_body value key with
      | Ok (Next v) => for_keys_log v keys'
      | _ => []
      end
  end.
End Extract.

End GoogleSearch.

(** ** [get_gbiz_info.py]: [GbizInfoFetcher._get_value_safely] *)

Module Gbiz.
Import Py.

Fixpoint _get_value_safely (data : pyvalue) (keys : list pystr)
  : result pyvalue :=
  match keys with
  | [] => Ok data
  | key :: keys' =>
      if isinstance_dict data then
        data' ← get data key; _get_value_safely data' keys'
      else Ok VNone
  end.

End Gbiz.

(** ** The contract, in the words of the specification *)

Module Spec.
Import Py.

Section Resolve.
Context {ucd : unicode_db}.

(** "The segment consists entirely of decimal digits": the zero-based
    index it denotes. *)
Definition index_of (segment : pystr) : option nat :=
  match segment with
  | [] => None
  | _ => ds ← mapM to_decimal segment; Some (Z.to_nat (of_digits ds))
  end.

(** One segment: an index into a sequence when the segment is decimal
    and the cursor a sequence, else a key of a mapping, else failure. *)
Definition step (cursor : pyvalue) (segment : pystr) : option pyvalue :=
  match index_of segment, cursor with
  | Some i, VList items => items !! i
  | _, VDict entries => dict_lookup entries segment
  | _, _ => None
  end.

(** The segments from left to right; [None] is the dedicated "absent". *)
Fixpoint resolve (cursor : pyvalue) (segments : list pystr)
  : option pyvalue :=
  match segments with
  | [] => Some cursor
  | segment :: rest => cursor' ← step cursor segment; resolve cursor' rest
  end.

Definition extract (value : pyvalue) (path : pystr) : option pyvalue :=
  resolve value (split 46 path).

(** The three ways a segment fails at a cursor: a mapping without the
    key, a sequence too short for the index, a cursor that cannot be
    traversed by the segment (neither a mapping nor a sequence addressed
    by a decimal index). *)
Inductive fails : pyvalue → pystr → Prop :=
| missing_key entries key :
    dict_lookup entries key = None → fails (VDict entries) key
| out_of_bounds items key i :
    index_of key = Some i → (length items ≤ i)%nat →
    fails (VList items) key
| not_traversable cursor key :
    isinstance_dict cursor = false →
    (isinstance_list cursor = true → index_of key = None) →
    fails cursor key.

(** The segments on which [str.isdigit] and [int] agree: one made of digit
    characters is a literal that [int] converts (decimal digits, no more
    of them than the limit allows). *)
Definition decimal_keys (segments : list pystr) : Prop :=
  Forall (λ key, isdigit key = true → ∃ i, int key = Ok i) segments.

(** The record of an item: one column per path, absent stored as [None]. *)
Definition record (item : pyvalue) (paths : list pystr)
  : list (pystr * pyvalue) :=
  (λ path, (path, default VNone (extract item path))) <$> paths.

Definition table (items : list pyvalue) (paths : list pystr)
  : list (list (pystr * pyvalue)) :=
  (λ item, record item paths) <$> items.
End Resolve.

(** A list of mapping keys followed from a cursor, as [_get_value_safely]
    is documented: the value at the end, or absent. *)
Fixpoint lookup_path (cursor : pyvalue) (keys : list pystr)
  : option pyvalue :=
  match keys with
  | [] => Some cursor
  | key :: rest =>
      match cursor with
      | VDict entries => v ← dict_lookup entries key; lookup_path v rest
      | _ => None
      end
  end.

End Spec.

(** ** The same loops over a store of objects

    Python passes references: [value = item] and [value = value[i]] copy a
    reference, not an object.  To speak about mutation the loops are
    modelled once more over a store, where a call is a state transformer. *)

Module Heap.
Import Py.

Definition loc : Type := positive.

(** A reference: the [None] singleton or the address of an object. *)
Inductive word :=
| WNone
| WRef (l : loc).

Inductive object :=
| OBool (b : bool)
| OInt (z : Z)
| OFloat (bits : Z)
| OStr (s : pystr)
| OList (items : list word)
| ODict (entries : list (pystr * word)).

Abbreviation heap := (gmap loc object).

(** A computation threads the store and returns or raises; it has no
    outcome when it follows a reference to nothing, which no Python
    program can hold. *)
Definition M (A : Type) : Type := heap → option (result A * heap).

Definition ret {A} (a : A) : M A := λ h, Some (Ok a, h).
Definition raise {A} (e : exn) : M A := λ h, Some (Raise e, h).
Definition bind {A B} (m : M A) (f : A → M B) : M B := λ h,
  match m h with
  | Some (Ok a, h') => f a h'
  | Some (Raise e, h') => Some (Raise e, h')
  | None => None
  end.
Definition load (l : loc) : M object := λ h,
  match h !! l with
  | Some o => Some (Ok o, h)
  | None => None
  end.
Definition lift {A} (r : result A) : M A := λ h, Some (r, h).
Definition try_except {A} (m : M A) (handler : exn → M A) : M A := λ h,
  match m h with
  | Some (Raise e, h') => handler e h'
  | r => r
  end.

Notation "x ⇐ m ; k" := (bind m (λ x, k))
  (at level 20, m at level 100, k at level 200, right associativity,
   format "x  ⇐  m ;  '/' k").

Definition isinstance_list (value : word) : M bool :=
  match value with
  | WNone => ret false
  | WRef l => o ⇐ load l; ret (match o with OList _ => true | _ => false end)
  end.

Definition isinstance_dict (value : word) : M bool :=
  match value with
  | WNone => ret false
  | WRef l => o ⇐ load l; ret (match o with ODict _ => true | _ => false end)
  end.

Definition list_getitem (items : list word) (i : Z) : result word :=
  let n := Z.of_nat (length items) in
  let j := if i <? 0 then i + n else i in
  if (0 <=? j) && (j <? n) then
    match items !! Z.to_nat j with
    | Some v => Ok v
    | None => Raise IndexError
    end
  else Raise IndexError.

Definition getitem (value : word) (i : Z) : M word :=
  match value with
  | WNone => raise TypeError
  | WRef l =>
      o ⇐ load l;
      match o with
      | OList items => lift (list_getitem items i)
      | ODict _ => raise KeyError
      | _ => raise TypeError
      end
  end.

Fixpoint dict_lookup (entries : list (pystr * word)) (key : pystr)
  : option word :=
  match entries with
  | [] => None
  | (k, v) :: entries' =>
      if decide (k = key) then Some v else dict_lookup entries' key
  end.

Definition get (value : word) (key : pystr) : M word :=
  match value with
  | WNone => raise AttributeError
  | WRef l =>
      o ⇐ load l;
      match o with
      | ODict entries => ret (default WNone (dict_lookup entries key))
      | _ => raise AttributeError
      end
  end.

Inductive control :=
| Next (value : word)
| Break (value : word).

Section Extract.
Context {ucd : unicode_db}.

Definition body (value : word) (key : pystr) : M control :=
  is_list ⇐ isinstance_list value;
  if isdigit key && is_list then
    i ⇐ lift (int key); v ⇐ getitem value i; ret (Next v)
  else
    is_dict ⇐ isinstance_dict value;
    if is_dict then v ⇐ get value key; ret (Next v)
    else ret (Break WNone).

Definition try_body (value : word) (key : pystr) : M control :=
  try_except (body value key)
    (λ e, if GoogleSearch.caught e then ret (Break WNone) else raise e).

Fixpoint for_keys (value : word) (keys : list pystr) : M word :=
  match keys with
  | [] => ret value
  | key :: keys' =>
      c ⇐ try_body value key;
      match c with
      | Next v => for_keys v keys'
      | Break v => ret v
      end
  end.

Definition extract (item : word) (key_path : pystr) : M word :=
  for_keys item (split 46 key_path).
End Extract.

Fixpoint _get_value_safely (data : word) (keys : list pystr) : M word :=
  match keys with
  | [] => ret data
  | key :: keys' =>
      is_dict ⇐ isinstance_dict data;
      if is_dict then data' ⇐ get data key; _get_value_safely data' keys'
      else ret WNone
  end.

(** [repr h w v]: in the store [h] the reference [w] denotes the value [v]. *)
Inductive repr (h : heap) : word → pyvalue → Prop :=
| repr_none : repr h WNone VNone
| repr_bool l b : h !! l = Some (OBool b) → repr h (WRef l) (VBool b)
| repr_int l z : h !! l = Some (OInt z) → repr h (WRef l) (VInt z)
| repr_float l bits :
    h !! l = Some (OFloat bits) → repr h (WRef l) (VFloat bits)
| repr_str l s : h !! l = Some (OStr s) → repr h (WRef l) (VStr s)
| repr_list l ws vs :
    h !! l = Some (OList ws) → Forall2 (repr h) ws vs →
    repr h (WRef l) (VList vs)
| repr_dict l es entries :
    h !! l = Some (ODict es) →
    Forall2 (λ e kv, e.1 = kv.1 ∧ repr h e.2 kv.2) es entries →
    repr h (WRef l) (VDict entries).

(** Results and loop controls that denote the same. *)
Definition result_rel (h : heap) (r' : result word) (r : result pyvalue)
  : Prop :=
  match r', r with
  | Ok w, Ok v => repr h w v
  | Raise e', Raise e => e' = e
  | _, _ => False
  end.

Definition control_rel (h : heap) (c' : result control)
    (c : result GoogleSearch.control) : Prop :=
  match c', c with
  | Ok (Next w), Ok (GoogleSearch.Next v) => repr h w v
  | Ok (Break w), Ok (GoogleSearch.Break v) => repr h w v
  | Raise e', Raise e => e' = e
  | _, _ => False
  end.

(** Two calls in a row, the second on the store the first one left. *)
Definition twice {A} (m : M A) : heap → option ((result A * result A) * heap) :=
  λ h,
  match m h with
  | Some (r1, h1) =>
      match m h1 with
      | Some (r2, h2) => Some ((r1, r2), h2)
      | None => None
      end
  | None => None
  end.

(** A computation that leaves the store as it found it. *)
Definition readonly {A} (m : M A) : Prop :=
  ∀ h r h', m h = Some (r, h') → h' = h.

End Heap.

(** ** More of the object model: truth values, iteration, subscripts

    What the two fetch loops ask of a parsed response beyond [get]. *)

Module PyObject.
Import Py.

(** [bool(value)], as [if value:] and [if not value:] test it.  A float is
    false when it is one of the two zeros. *)
Definition truthy (value : pyvalue) : bool :=
  match value with
  | VNone => false
  | VBool b => b
  | VInt z => negb (z =? 0)
  | VFloat bits => negb ((bits =? 0) || (bits =? 2 ^ 63))
  | VStr [] | VList [] | VDict [] => false
  | VStr _ | VList _ | VDict _ => true
  end.

(** [iter(value)] run to the end, which is what [list.extend(value)]
    appends: the elements of a list, the keys of a dict, the characters of
    a string; anything else is not iterable. *)
Definition iterate (value : pyvalue) : result (list pyvalue) :=
  match value with
  | VList items => Ok items
  | VDict entries => Ok (VStr <$> entries.*1)
  | VStr s => Ok ((λ c, VStr [c]) <$> s)
  | _ => Raise TypeError
  end.

(** [value.get(key, fallback)]. *)
Definition get_or (value : pyvalue) (key : pystr) (fallback : pyvalue)
  : result pyvalue :=
  match value with
  | VDict entries => Ok (default fallback (dict_lookup entries key))
  | _ => Raise AttributeError
  end.

(** [s[i]] on a string: a string of one character. *)
Definition str_getitem (s : pystr) (i : Z) : result pyvalue :=
  let n := Z.of_nat (length s) in
  let j := if i <? 0 then i + n else i in
  if (0 <=? j) && (j <? n) then
    match s !! Z.to_nat j with
    | Some c => Ok (VStr [c])
    | None => Raise IndexError
    end
  else Raise IndexError.

(** [value[i]] for any value and an [int] [i]; the keys of a parsed dict
    are strings, so no dict has the key [i]. *)
Definition subscript (value : pyvalue) (i : Z) : result pyvalue :=
  match value with
  | VList items => list_getitem items i
  | VStr s => str_getitem s i
  | VDict _ => Raise KeyError
  | _ => Raise TypeError
  end.

End PyObject.

(** ** [get_google_search_result.py]: [get_google_search_results]

    The search service is outside the program: it is a state machine that
    answers a request with a response or an exception.  The pause between
    requests ([sleep(1)]) is not modelled, and of a printed line only which
    line it is. *)

Module SearchFetch.
Import Py PyObject.

(** The arguments of [service.cse().list(...)]. *)
Record request := Request {
  q : pystr;
  cx : pystr;
  lr : pystr;
  num : Z;
  start : pyvalue
}.

(** What [.execute()] does: it returns the parsed response, raises
    [HttpError], or raises some other exception. *)
Inductive reply :=
| Response (response : pyvalue)
| HttpError
| OtherError.

(** The four lines the function can print. *)
Inductive message :=
| NoMoreResults
| LastPage
| ApiError
| UnexpectedError.

(** What a call leaves: the list returned, the requests made with their
    answers, the lines printed, and the service afterwards. *)
Record run {service : Type} := Run {
  results : list pyvalue;
  calls : list (request * reply);
  printed : list message;
  final : service
}.
Arguments run service : clear implicits.

(** The statements of the [try] block up to [all_search_results.extend]:
    [None] when [not items], else what [extend] appends. *)
Definition page_items (response : pyvalue) : result (option (list pyvalue)) :=
  items ← get_or response (str "items") (VList []);
  if negb (truthy items) then Ok None
  else new ← iterate items; Ok (Some new).

(** The statements after it: the next [start_index], or [None] when
    there is no next page. *)
Definition page_next (response : pyvalue) : result (option pyvalue) :=
  queries ← get_or response (str "queries") (VDict []);
  pages ← get_or queries (str "nextPage") (VList [VNone]);
  next_page ← subscript pages 0;
  if truthy next_page then
    start_index ← get next_page (str "startIndex"); Ok (Some start_index)
  else Ok None.

Section Service.
Context {service : Type} (execute : service → request → reply * service).
Context (keyword custom_search_engine_id : pystr) (num_of_results : Z).

(** [for _ in range(page_limit): try: ... except ...: break]. *)
Fixpoint for_pages (pages : nat) (svc : service) (start_index : pyvalue)
    (all_search_results : list pyvalue) (calls : list (request * reply))
  : run service :=
  match pages with
  | O => Run _ all_search_results calls [] svc
  | S pages' =>
      let req := Request keyword custom_search_engine_id (str "lang_ja")
                   num_of_results start_index in
      let '(rep, svc') := execute svc req in
      let calls' := calls ++ [(req, rep)] in
      match rep with
      | HttpError => Run _ all_search_results calls' [ApiError] svc'
      | OtherError => Run _ all_search_results calls' [UnexpectedError] svc'
      | Response response =>
          match page_items response with
          | Raise _ => Run _ all_search_results calls' [UnexpectedError] svc'
          | Ok None => Run _ all_search_results calls' [NoMoreResults] svc'
          | Ok (Some new) =>
              let all_search_results' := all_search_results ++ new in
              match page_next response with
              | Raise _ =>
                  Run _ all_search_results' calls' [UnexpectedError] svc'
              | Ok None => Run _ all_search_results' calls' [LastPage] svc'
              | Ok (Some start_index') =>
                  for_pages pages' svc' start_index' all_search_results' calls'
              end
          end
      end
  end.

Definition get_google_search_results (svc : service) (page_limit : Z)
  : run service :=
  for_pages (Z.to_nat page_limit) svc (VInt 1) [] [].
End Service.

(** The items a call brought in: those of a response whose [items] is
    true and iterable. *)
Definition delivered (call : request * reply) : list pyvalue :=
  match call.2 with
  | Response response =>
      match page_items response with
      | Ok (Some new) => new
      | _ => []
      end
  | _ => []
  end.

End SearchFetch.

(** ** [get_gbiz_info.py]: [GbizInfoFetcher.__init__] and [fetch_data]

    The registry is a state machine as well.  [requests.get],
    [raise_for_status] and [response.json] are one step: it gives the
    parsed body or raises a [RequestException] (no connection, a status
    outside 2xx, a body that is not JSON, which [requests] reports as a
    [RequestException] too). *)

Module GbizFetch.
Import Py PyObject.

Record GbizInfoFetcher := { api_token : pystr }.

Definition BASE_URL : pystr := str "https://info.gbiz.go.jp/hojin/v1/hojin/".

Definition __init__ (api_token : pystr) : result GbizInfoFetcher :=
  if negb (truthy (VStr api_token)) then Raise ValueError
  else Ok {| api_token := api_token |}.

(** The URL and the token header of a request. *)
Record request := Request { url : pystr; token : pystr }.

Inductive reply :=
| Json (data : pyvalue)
| RequestException.

Inductive message :=
| Started (count : nat)
| Succeeded (number : pystr)
| Failed (number : pystr)
| NoData
| Completed.

(** The column names, as code points. *)
Definition corporate_number : pystr := [27861; 20154; 30058; 21495]%N.
Definition corporate_name : pystr := [27861; 20154; 21517]%N.
Definition location : pystr := [25152; 22312; 22320]%N.
Definition employees : pystr := [24467; 26989; 21729; 25968]%N.
Definition capital : pystr := [36039; 26412; 37329]%N.
Definition established : pystr := [35373; 31435; 26085]%N.
Definition website : pystr := [87; 101; 98; 12469; 12452; 12488]%N.
Definition summary : pystr := [20225; 26989; 27010; 35201]%N.

(** The list in [df[[...]]]. *)
Definition columns : list pystr :=
  [corporate_number; corporate_name; location; employees; capital;
   established; website; summary].

(** From [data = response.json()] to the dict [info]. *)
Definition info (number : pystr) (data : pyvalue)
  : result (list (pystr * pyvalue)) :=
  hojin_infos ← get_or data (str "hojin-infos") (VList [VDict []]);
  hojin_info ← subscript hojin_infos 0;
  business_summary ← get_or hojin_info (str "business_summary") (VDict []);
  name ← get hojin_info (str "name");
  loc ← get hojin_info (str "location");
  employee_number ← get hojin_info (str "employee_number");
  capital_stock ←
    Gbiz._get_value_safely hojin_info
      [str "capital_stock_summary"; str "capital_stock"];
  date_of_establishment ← get hojin_info (str "date_of_establishment");
  company_url ← get hojin_info (str "company_url");
  business ← get hojin_info (str "business_summary");
  Ok [(corporate_number, VStr number); (corporate_name, name);
      (location, loc); (employees, employee_number);
      (capital, capital_stock); (established, date_of_establishment);
      (website, company_url); (summary, business)].

(** What a call leaves.  [returned] is the list [results] that the code
    hands to [pd.DataFrame], or the exception that leaves the method: the
    frame built from the list, the cells pandas stores in it (a column
    with an [int] and a [None] holds a float and NaN) and the reordering
    [df[[...]]] of its columns are not modelled. *)
Record run {service : Type} := Run {
  returned : result (list (list (pystr * pyvalue)));
  calls : list (request * reply);
  printed : list message;
  final : service
}.
Arguments run service : clear implicits.

Section Service.
Context {service : Type} (get : service → request → reply * service).
Context (self : GbizInfoFetcher).

(** The statements after the loop: without results the empty
    [pd.DataFrame()], else the frame made of [results]. *)
Definition finish (svc : service) (results : list (list (pystr * pyvalue)))
    (calls : list (request * reply)) (printed : list message) : run service :=
  match results with
  | [] => Run _ (Ok []) calls (printed ++ [NoData]) svc
  | _ => Run _ (Ok results) calls (printed ++ [Completed]) svc
  end.

(** [for number in corporate_numbers: try: ... except RequestException]. *)
Fixpoint for_numbers (corporate_numbers : list pystr) (svc : service)
    (results : list (list (pystr * pyvalue)))
    (calls : list (request * reply)) (printed : list message) : run service :=
  match corporate_numbers with
  | [] => finish svc results calls printed
  | number :: rest =>
      let req := Request (BASE_URL ++ number) (api_token self) in
      let '(rep, svc') := get svc req in
      let calls' := calls ++ [(req, rep)] in
      match rep with
      | RequestException =>
          for_numbers rest svc' results calls' (printed ++ [Failed number])
      | Json data =>
          match info number data with
          | Ok row =>
              for_numbers rest svc' (results ++ [row]) calls'
                (printed ++ [Succeeded number])
          | Raise e => Run _ (Raise e) calls' printed svc'
          end
      end
  end.

Definition fetch_data (svc : service) (corporate_numbers : list pystr)
  : run service :=
  for_numbers corporate_numbers svc [] [] [Started (length corporate_numbers)].
End Service.

(** The numbers the registry answered with a body, each with its body. *)
Definition answered (corporate_numbers : list pystr)
    (calls : list (request * reply)) : list (pystr * pyvalue) :=
  omap (λ nc : pystr * (request * reply),
          match nc.2.2 with
          | Json data => Some (nc.1, data)
          | RequestException => None
          end)
       (zip corporate_numbers calls).

End GbizFetch.

(** ** The character table and the inputs of the closed examples *)

Import Py.

#[local] Program Instance latin1 : unicode_db :=
  {| to_decimal := latin1_decimal; to_digit := latin1_digit;
     max_str_digits := 4300 |}.
Next Obligation.
  intros c d. unfold latin1_decimal, latin1_digit.
  by destruct ((48 <=? c)%N && (c <=? 57)%N).
Qed.
Next Obligation.
  intros c Hc. unfold latin1_decimal.
  replace ((48 <=? c)%N && (c <=? 57)%N) with true; [done|].
  symmetry. apply andb_true_intro. split; apply N.leb_le; lia.
Qed.
Next Obligation.
  intros c Hlt Hc. unfold latin1_digit.
  destruct (48 <=? c)%N eqn:H1; destruct (c <=? 57)%N eqn:H2; simpl;
    try (apply N.leb_le in H1; apply N.leb_le in H2; lia).
  all: destruct (c =? 178)%N eqn:E1; [apply N.eqb_eq in E1; lia|].
  all: destruct (c =? 179)%N eqn:E2; [apply N.eqb_eq in E2; lia|].
  all: destruct (c =? 185)%N eqn:E3; [apply N.eqb_eq in E3; lia|done].
Qed.

Module Examples.

(** [{"a": {"b": [10, 20, 30]}}] *)
Definition nested : pyvalue :=
  VDict [(str "a", VDict [(str "b", VList [VInt 10; VInt 20; VInt 30])])].

(** [{"a": None}] *)
Definition null_field : pyvalue := VDict [(str "a", VNone)].

(** [{"a": {"b": 1}}] *)
Definition leaf : pyvalue := VDict [(str "a", VDict [(str "b", VInt 1)])].

(** [{"x": 1}] and [{"x": [1]}] *)
Definition x_one : pyvalue := VDict [(str "x", VInt 1)].
Definition x_list : pyvalue := VDict [(str "x", VList [VInt 1])].

(** [{"": 1}] and [{"0": 5}] *)
Definition empty_key : pyvalue := VDict [(str "", VInt 1)].
Definition digit_key : pyvalue := VDict [(str "0", VInt 5)].

(** A segment of 4301 zeros: one digit more than [int] converts by
    default. *)
Definition long_index : pystr := replicate 4301 48%N.

(** The path ["x.²"], whose second segment is SUPERSCRIPT TWO (U+00B2). *)
Definition x_superscript : pystr := str "x." ++ [178%N].

(** A store holding [{"a": [7, None]}] at address 1. *)
Definition store : gmap Heap.loc Heap.object :=
  {[ 1%positive := Heap.ODict [(str "a", Heap.WRef 2%positive)];
     2%positive := Heap.OList [Heap.WRef 3%positive; Heap.WNone];
     3%positive := Heap.OInt 7 ]}.

End Examples.

Module FetchExamples.

(** A search service with two pages of one result each; it fails from the
    third request on.  Its state counts the requests served. *)
Definition page1 : pyvalue :=
  VDict [(str "items", VList [VDict [(str "title", VStr (str "first"))]]);
         (str "queries",
          VDict [(str "nextPage", VList [VDict [(str "startIndex", VInt 11)]])])].

Definition page2 : pyvalue :=
  VDict [(str "items", VList [VDict [(str "title", VStr (str "second"))]])].

Definition two_pages (served : nat) (req : SearchFetch.request)
  : SearchFetch.reply * nat :=
  (match served with
   | 0%nat => SearchFetch.Response page1
   | 1%nat => SearchFetch.Response page2
   | _ => SearchFetch.HttpError
   end, S served).

(** A registry that knows the first number asked for, fails on the second
    request, and answers the third with an empty list of records. *)
Definition known : pyvalue :=
  VDict [(str "hojin-infos",
          VList [VDict [(str "name", VStr (str "ACME"));
                        (str "capital_stock_summary",
                         VDict [(str "capital_stock", VInt 1000)])]])].

Definition unknown : pyvalue := VDict [(str "hojin-infos", VList [])].

Definition registry (served : nat) (req : GbizFetch.request)
  : GbizFetch.reply * nat :=
  (match served with
   | 0%nat => GbizFetch.Json known
   | 1%nat => GbizFetch.RequestException
   | _ => GbizFetch.Json unknown
   end, S served).

Definition fetcher : GbizFetch.GbizInfoFetcher :=
  {| GbizFetch.api_token := str "secret" |}.

End FetchExamples.

Create HintDb readonly.

(** ** The builtins *)

Section BuiltinFacts.
Context {ucd : unicode_db}.

Lemma foldl_digits_nonneg ds acc :
  0 ≤ acc → 0 ≤ foldl (λ a d, 10 * a + Z.of_N d) acc ds.
Proof.
  revert acc. induction ds as [|d ds IH]; intros acc Hacc; simpl; [done|].
  apply IH. lia.
Qed.

Lemma of_digits_nonneg ds : 0 ≤ of_digits ds.
Proof. by apply foldl_digits_nonneg. Qed.

Lemma int_nonneg key i : int key = Ok i → 0 ≤ i.
Proof.
  unfold int. destruct key as [|c key]; [done|].
  destruct (mapM _ _); [|done]. destruct (too_long _); [done|].
  intros [= <-]. apply of_digits_nonneg.
Qed.

Lemma index_of_int key i :
  Spec.index_of key = Some i → too_long key = false →
  int key = Ok (Z.of_nat i).
Proof.
  unfold Spec.index_of, int. destruct key as [|c key]; [done|].
  destruct (mapM _ _) as [ds|]; simpl; [|done]. intros [= <-] ->.
  by rewrite Z2Nat.id by apply of_digits_nonneg.
Qed.

Lemma int_index_of key i :
  int key = Ok i → Spec.index_of key = Some (Z.to_nat i).
Proof.
  unfold Spec.index_of, int. destruct key as [|c key]; [done|].
  destruct (mapM _ _) as [ds|]; simpl; [|done].
  destruct (too_long _); [done|]. by intros [= <-].
Qed.

Lemma int_raises key e : int key = Raise e → e = ValueError.
Proof.
  unfold int. destruct key; [by intros [= <-]|].
  destruct (mapM _ _); [|by intros [= <-]].
  destruct (too_long _); [by intros [= <-]|done].
Qed.

Lemma index_of_None_int key : Spec.index_of key = None → int key = Raise ValueError.
Proof.
  intros Hnone. destruct (int key) as [i|e] eqn:Hint.
  - apply int_index_of in Hint. congruence.
  - by rewrite (int_raises _ _ Hint).
Qed.

Lemma too_long_tail c key : too_long (c :: key) = false → too_long key = false.
Proof.
  unfold too_long. destruct (0 <? max_str_digits)%N; [|done]. simpl.
  intros Hc%N.ltb_ge. apply N.ltb_ge. simpl in Hc. lia.
Qed.

Lemma index_of_isdigit key i : Spec.index_of key = Some i → isdigit key = true.
Proof.
  unfold Spec.index_of, isdigit. destruct key as [|c key]; [done|].
  intros Hidx.
  destruct (mapM to_decimal (c :: key)) as [ds|] eqn:Hds;
    [clear Hidx|by simpl in Hidx].
  apply mapM_Some in Hds. apply forallb_forall. intros c' Hin.
  apply list_elem_of_In in Hin. apply bool_decide_eq_true.
  assert (Forall (λ x, is_Some (to_digit x)) (c :: key)) as Hall.
  { eapply Forall2_Forall_l; [exact Hds|]. apply Forall_forall.
    intros d _ x Hx. exists d. by apply decimal_is_digit. }
  rewrite Forall_forall in Hall. by apply Hall.
Qed.

Lemma int_isdigit key i : int key = Ok i → isdigit key = true.
Proof. intros Hint. eapply index_of_isdigit, int_index_of, Hint. Qed.

Lemma isdigit_all key c : isdigit key = true → c ∈ key → is_Some (to_digit c).
Proof.
  unfold isdigit. destruct key as [|c0 key]; [done|].
  intros Hall Hc. rewrite forallb_forall in Hall.
  apply list_elem_of_In, Hall in Hc. by apply bool_decide_eq_true in Hc.
Qed.

Lemma isdigit_false key c : c ∈ key → to_digit c = None → isdigit key = false.
Proof.
  intros Hc Hnone. destruct (isdigit key) eqn:Hd; [|done].
  destruct (isdigit_all key c Hd Hc) as [d Hd']. congruence.
Qed.

(** Non-negative indices read from the front of the list. *)
Lemma list_getitem_nonneg items i :
  0 ≤ i →
  list_getitem items i =
    match items !! Z.to_nat i with
    | Some v => Ok v
    | None => Raise IndexError
    end.
Proof.
  intros Hi. unfold list_getitem.
  replace (i <? 0) with false by (symmetry; apply Z.ltb_ge; lia).
  replace (0 <=? i) with true by (symmetry; apply Z.leb_le; lia). simpl.
  destruct (i <? Z.of_nat (length items)) eqn:Hlt; [done|].
  apply Z.ltb_ge in Hlt. rewrite lookup_ge_None_2; [done|lia].
Qed.
End BuiltinFacts.

(** ** Facts about [split] *)

Lemma split_nonempty sep s : split sep s ≠ [].
Proof.
  destruct s as [|c s]; simpl; [done|].
  destruct (c =? sep)%N; [done|]. by destruct (split sep s).
Qed.

Lemma split_app sep a b :
  split sep (a ++ sep :: b) = split sep a ++ split sep b.
Proof.
  induction a as [|c a IH]; simpl.
  - by rewrite N.eqb_refl.
  - destruct (c =? sep)%N; [by rewrite IH|].
    rewrite IH. pose proof (split_nonempty sep a).
    by destruct (split sep a).
Qed.

(** ** The loop of [preprocess_to_dataframe] *)

Section LoopFacts.
Context {ucd : unicode_db}.
Import GoogleSearch.

Lemma try_body_dict entries key :
  try_body (VDict entries) key =
    Ok (Next (default VNone (dict_lookup entries key))).
Proof. unfold try_body, body. simpl. by rewrite andb_false_r. Qed.

Lemma try_body_list items key :
  try_body (VList items) key =
    if isdigit key then
      match int key with
      | Ok i =>
          match items !! Z.to_nat i with
          | Some v => Ok (Next v)
          | None => Ok (Break VNone)
          end
      | Raise _ => Raise ValueError
      end
    else Ok (Break VNone).
Proof.
  unfold try_body, body. simpl. rewrite andb_true_r.
  destruct (isdigit key); [|done].
  destruct (int key) as [i|e] eqn:Hint; simpl.
  - rewrite list_getitem_nonneg by (by eapply int_nonneg).
    by destruct (items !! Z.to_nat i).
  - by rewrite (int_raises _ _ Hint).
Qed.

Lemma try_body_other value key :
  isinstance_list value = false → isinstance_dict value = false →
  try_body value key = Ok (Break VNone).
Proof.
  intros Hl Hd. unfold try_body, body. rewrite Hl, Hd.
  by rewrite andb_false_r.
Qed.

Lemma for_keys_None keys : for_keys VNone keys = Ok VNone.
Proof. destruct keys; [done|]. simpl. by rewrite try_body_other. Qed.

Lemma for_keys_log_None keys : for_keys_log VNone keys = [].
Proof.
  destruct keys; [done|]. simpl. rewrite try_body_other by done.
  unfold body_log. simpl. by rewrite andb_false_r.
Qed.

(** One pass of the loop, by the type of the cursor. *)
Lemma for_keys_cons value key rest :
  for_keys value (key :: rest) =
    match value with
    | VList items =>
        if isdigit key then
          match int key with
          | Ok i =>
              match items !! Z.to_nat i with
              | Some v => for_keys v rest
              | None => Ok VNone
              end
          | Raise e => Raise e
          end
        else Ok VNone
    | VDict entries => for_keys (default VNone (dict_lookup entries key)) rest
    | _ => Ok VNone
    end.
Proof.
  cbn [for_keys]. destruct value as [| | | | |items|entries];
    rewrite ?try_body_dict, ?try_body_list, ?try_body_other by done; try done.
  destruct (isdigit key); [|done].
  destruct (int key) as [i|e] eqn:Hint; [by destruct (items !! Z.to_nat i)|].
  by rewrite (int_raises _ _ Hint).
Qed.

(** A step of the contract is a pass through the body that goes on, when
    [int] converts the segment it is asked to. *)
Lemma step_try_body cursor key v :
  (isdigit key = true → ∃ i, int key = Ok i) →
  Spec.step cursor key = Some v → try_body cursor key = Ok (Next v).
Proof.
  unfold Spec.step. intros Hint Hstep.
  destruct cursor as [| | | | |items|entries].
  1-5: by destruct (Spec.index_of key).
  - destruct (Spec.index_of key) as [i|] eqn:Hidx; [|done].
    rewrite try_body_list, (index_of_isdigit _ _ Hidx).
    destruct Hint as [j Hj]; [by eapply index_of_isdigit|]. rewrite Hj.
    apply int_index_of in Hj. rewrite Hidx in Hj. injection Hj as <-.
    by rewrite Hstep.
  - rewrite try_body_dict.
    by destruct (Spec.index_of key); rewrite Hstep.
Qed.

Lemma fails_step cursor key : Spec.fails cursor key → Spec.step cursor key = None.
Proof.
  unfold Spec.step. intros [entries k Hk|items k i Hi Hlen|c k Hd Hl].
  - by destruct (Spec.index_of k).
  - rewrite Hi. apply lookup_ge_None_2. lia.
  - destruct c; try (by destruct (Spec.index_of k)). by rewrite Hl.
Qed.

Lemma step_None_fails cursor key :
  Spec.step cursor key = None → Spec.fails cursor key.
Proof.
  unfold Spec.step. intros Hstep.
  destruct cursor as [| | | | |items|entries].
  1-5: by apply Spec.not_traversable.
  - destruct (Spec.index_of key) as [i|] eqn:Hi.
    + apply (Spec.out_of_bounds _ _ i); [done|]. by apply lookup_ge_None_1.
    + by apply Spec.not_traversable.
  - apply Spec.missing_key. by destruct (Spec.index_of key).
Qed.

(** A failing segment ends the loop with [None]: at once, or, after a
    missing key, at the segment that follows. *)
Lemma fails_try_body cursor key :
  (isdigit key = true → ∃ i, int key = Ok i) →
  Spec.fails cursor key →
  try_body cursor key =
    if isinstance_dict cursor then Ok (Next VNone) else Ok (Break VNone).
Proof.
  intros Hint Hf. revert Hint.
  destruct Hf as [entries k Hk|items k i Hi Hlen|c k Hd Hl]; intros Hint.
  - by rewrite try_body_dict, Hk.
  - rewrite try_body_list, (index_of_isdigit _ _ Hi).
    destruct Hint as [j Hj]; [by eapply index_of_isdigit|]. rewrite Hj.
    apply int_index_of in Hj. rewrite Hi in Hj. injection Hj as <-.
    rewrite lookup_ge_None_2; [done|lia].
  - rewrite Hd. destruct (isinstance_list c) eqn:Hlist.
    + destruct c; try done. rewrite try_body_list.
      destruct (isdigit k) eqn:Hdig; [|done].
      destruct Hint as [j Hj]; [done|]. apply int_index_of in Hj.
      rewrite Hl in Hj; done.
    + by apply try_body_other.
Qed.

Lemma for_keys_fails cursor key rest :
  (isdigit key = true → ∃ i, int key = Ok i) →
  Spec.fails cursor key → for_keys cursor (key :: rest) = Ok VNone.
Proof.
  intros Hint Hf. simpl. rewrite (fails_try_body _ _ Hint Hf).
  destruct (isinstance_dict cursor); [apply for_keys_None|done].
Qed.

Lemma for_keys_log_fails cursor key rest :
  (isdigit key = true → ∃ i, int key = Ok i) →
  Spec.fails cursor key →
  for_keys_log cursor (key :: rest) = for_keys_log cursor [key].
Proof.
  intros Hint Hf. simpl. rewrite (fails_try_body _ _ Hint Hf).
  destruct (isinstance_dict cursor); [by rewrite for_keys_log_None|done].
Qed.

Lemma for_keys_passes_None keys :
  for_keys_passes VNone keys = match keys with [] => 0 | _ => 1 end%nat.
Proof. destruct keys; [done|]. simpl. by rewrite try_body_other. Qed.

Lemma for_keys_passes_fails cursor key rest :
  (isdigit key = true → ∃ i, int key = Ok i) →
  Spec.fails cursor key →
  for_keys_passes cursor (key :: rest) =
    S match cursor, rest with
      | VDict _, _ :: _ => 1
      | _, _ => 0
      end.
Proof.
  intros Hint Hf. simpl. rewrite (fails_try_body _ _ Hint Hf).
  destruct cursor; try done. simpl. rewrite for_keys_passes_None.
  by destruct rest.
Qed.

Lemma resolve_for_keys value pre cursor keys :
  Spec.decimal_keys pre →
  Spec.resolve value pre = Some cursor →
  for_keys value (pre ++ keys) = for_keys cursor keys.
Proof.
  intros Hdec. revert value.
  induction Hdec as [|key pre Hkey _ IH]; intros value; simpl.
  - by intros [= ->].
  - destruct (Spec.step value key) as [v|] eqn:Hstep; simpl; [|done].
    intros Hres. rewrite (step_try_body _ _ _ Hkey Hstep). by apply IH.
Qed.

Lemma resolve_for_keys_log value pre cursor keys :
  Spec.decimal_keys pre →
  Spec.resolve value pre = Some cursor →
  for_keys_log value (pre ++ keys) =
    for_keys_log value pre ++ for_keys_log cursor keys.
Proof.
  intros Hdec. revert value.
  induction Hdec as [|key pre Hkey _ IH]; intros value; simpl.
  - by intros [= ->].
  - destruct (Spec.step value key) as [v|] eqn:Hstep; simpl; [|done].
    intros Hres. rewrite (step_try_body _ _ _ Hkey Hstep).
    by rewrite (IH _ Hres), (assoc_L (++)).
Qed.

Lemma resolve_for_keys_passes value pre cursor keys :
  Spec.decimal_keys pre →
  Spec.resolve value pre = Some cursor →
  for_keys_passes value (pre ++ keys) =
    (length pre + for_keys_passes cursor keys)%nat.
Proof.
  intros Hdec. revert value.
  induction Hdec as [|key pre Hkey _ IH]; intros value; simpl.
  - by intros [= ->].
  - destruct (Spec.step value key) as [v|] eqn:Hstep; simpl; [|done].
    intros Hres. rewrite (step_try_body _ _ _ Hkey Hstep).
    by rewrite (IH _ Hres).
Qed.
End LoopFacts.

Section Refinement.
Context {ucd : unicode_db}.
Import GoogleSearch.

(** Where [int] converts every segment of digit characters, the loop
    computes the contract, with [None] for absent. *)
Lemma for_keys_refines value keys :
  Spec.decimal_keys keys →
  for_keys value keys = Ok (default VNone (Spec.resolve value keys)).
Proof.
  intros Hdec. revert value.
  induction Hdec as [|key keys Hkey _ IH]; intros value; [done|].
  cbn [Spec.resolve]. destruct (Spec.step value key) as [v|] eqn:Hstep.
  - cbn [for_keys]. rewrite (step_try_body _ _ _ Hkey Hstep). apply IH.
  - by apply for_keys_fails, step_None_fails.
Qed.

Lemma extract_refines item path :
  Spec.decimal_keys (split 46 path) →
  extract item path = Ok (default VNone (Spec.extract item path)).
Proof. apply for_keys_refines. Qed.

Lemma dict_setitem_fresh row key value :
  key ∉ row.*1 → dict_setitem row key value = row ++ [(key, value)].
Proof.
  induction row as [|[k v] row IH]; simpl; [done|].
  intros Hnotin. apply not_elem_of_cons in Hnotin as [Hne Hnotin].
  rewrite decide_False by done. by rewrite IH.
Qed.

Lemma for_key_paths_record item paths row :
  NoDup (row.*1 ++ paths) →
  Forall (λ path, Spec.decimal_keys (split 46 path)) paths →
  for_key_paths item paths row = Ok (row ++ Spec.record item paths).
Proof.
  intros Hnd Hdec. revert row Hnd.
  induction Hdec as [|path paths Hpath _ IH]; intros row Hnd; simpl.
  - by rewrite app_nil_r.
  - rewrite (extract_refines _ _ Hpath). simpl.
    apply NoDup_app in Hnd as (Hrow & Hdisj & Hpaths).
    rewrite dict_setitem_fresh by (intros Hin; eapply Hdisj; [done|left]).
    rewrite IH.
    + by rewrite <-(assoc_L (++)).
    + rewrite fmap_app. simpl. rewrite <-(assoc_L (++)). simpl.
      apply NoDup_app. split_and!; [done|..|done].
      intros p Hp. by apply Hdisj.
Qed.

Lemma for_items_table items paths processed_data :
  NoDup paths →
  Forall (λ path, Spec.decimal_keys (split 46 path)) paths →
  for_items items paths processed_data =
    Ok (processed_data ++ Spec.table items paths).
Proof.
  intros Hnd Hdec. revert processed_data.
  induction items as [|item items IH]; intros processed_data; simpl.
  - by rewrite app_nil_r.
  - rewrite for_key_paths_record by done. simpl.
    by rewrite IH, <-(assoc_L (++)).
Qed.

(** The table of [preprocess_to_dataframe], for distinct paths in which
    [int] converts every segment of digit characters. *)
Lemma preprocess_to_dataframe_table items paths :
  NoDup paths →
  Forall (λ path, Spec.decimal_keys (split 46 path)) paths →
  preprocess_to_dataframe items paths = Ok (Spec.table items paths).
Proof. intros. unfold preprocess_to_dataframe. by rewrite for_items_table. Qed.
End Refinement.

(** ** The loops over the store *)

Section HeapFacts.
Context {ucd : unicode_db}.
Import Heap.

Lemma readonly_ret {A} (a : A) : readonly (ret a).
Proof. by intros h r h' [= _ <-]. Qed.

Lemma readonly_raise {A} e : readonly (@raise A e).
Proof. by intros h r h' [= _ <-]. Qed.

Lemma readonly_lift {A} (r : result A) : readonly (lift r).
Proof. by intros h r' h' [= _ <-]. Qed.

Lemma readonly_load l : readonly (load l).
Proof.
  intros h r h'. unfold load. destruct (h !! l); [|done]. by intros [= _ <-].
Qed.

Lemma readonly_bind {A B} (m : M A) (f : A → M B) :
  readonly m → (∀ a, readonly (f a)) → readonly (bind m f).
Proof.
  intros Hm Hf h r h'. unfold bind.
  destruct (m h) as [[[a|e] h1]|] eqn:Hmh; [| |done].
  - intros Hfa. apply Hf in Hfa. apply Hm in Hmh. congruence.
  - intros [= _ <-]. by apply Hm in Hmh.
Qed.

Lemma readonly_try_except {A} (m : M A) handler :
  readonly m → (∀ e, readonly (handler e)) → readonly (try_except m handler).
Proof.
  intros Hm Hh h r h'. unfold try_except.
  destruct (m h) as [[[a|e] h1]|] eqn:Hmh; [| |done].
  - intros [= _ <-]. by apply Hm in Hmh.
  - intros Hhe. apply Hh in Hhe. apply Hm in Hmh. congruence.
Qed.

Local Hint Resolve readonly_ret readonly_raise readonly_lift readonly_load
  : readonly.

Local Ltac readonly_step :=
  first
    [ apply readonly_bind; [|intros ?]
    | apply readonly_try_except; [|intros ?]
    | solve [auto with readonly]
    | progress case_match ].

Lemma readonly_isinstance_list value : readonly (isinstance_list value).
Proof. unfold isinstance_list. repeat readonly_step. Qed.

Lemma readonly_isinstance_dict value : readonly (isinstance_dict value).
Proof. unfold isinstance_dict. repeat readonly_step. Qed.

Lemma readonly_getitem value i : readonly (getitem value i).
Proof. unfold getitem. repeat readonly_step. Qed.

Lemma readonly_get value key : readonly (get value key).
Proof. unfold get. repeat readonly_step. Qed.

Local Hint Resolve readonly_isinstance_list readonly_isinstance_dict
  readonly_getitem readonly_get : readonly.

Lemma readonly_try_body value key : readonly (try_body value key).
Proof. unfold try_body, body. repeat readonly_step. Qed.

Lemma readonly_for_keys value keys : readonly (for_keys value keys).
Proof.
  revert value. induction keys as [|key keys IH]; intros value; simpl.
  - apply readonly_ret.
  - apply readonly_bind; [apply readonly_try_body|].
    intros [v|v]; [apply IH|apply readonly_ret].
Qed.

Lemma readonly_get_value_safely data keys :
  readonly (_get_value_safely data keys).
Proof.
  revert data. induction keys as [|key keys IH]; intros data; simpl.
  - apply readonly_ret.
  - apply readonly_bind; [apply readonly_isinstance_dict|].
    intros [|]; [|apply readonly_ret].
    apply readonly_bind; [apply readonly_get|]. intros v. apply IH.
Qed.

(** *** The store model computes what the value model computes *)

Lemma list_getitem_rel h ws vs i :
  Forall2 (repr h) ws vs →
  result_rel h (list_getitem ws i) (Py.list_getitem vs i).
Proof.
  intros Hall. unfold list_getitem, Py.list_getitem.
  rewrite (Forall2_length _ _ _ Hall).
  destruct (_ && _); [|done].
  rewrite Forall2_lookup in Hall.
  by destruct (Hall (Z.to_nat (if i <? 0 then i + Z.of_nat (length vs) else i))).
Qed.

Lemma dict_lookup_rel h es entries key :
  Forall2 (λ e kv, e.1 = kv.1 ∧ repr h e.2 kv.2) es entries →
  repr h (default WNone (dict_lookup es key))
         (default VNone (Py.dict_lookup entries key)).
Proof.
  induction 1 as [|[k w] [k' v] es entries [Hk Hv] _ IH]; simpl in *.
  - constructor.
  - subst k'. by destruct (decide (k = key)).
Qed.

Lemma try_body_rel h w v key :
  repr h w v →
  ∃ c', try_body w key h = Some (c', h) ∧
        control_rel h c' (GoogleSearch.try_body v key).
Proof.
  intros Hrepr.
  unfold try_body, GoogleSearch.try_body, body, GoogleSearch.body.
  unfold isinstance_list, isinstance_dict, getitem, get.
  unfold try_except, bind, load, ret, raise, lift.
  destruct Hrepr as [|l b Hl|l z Hl|l bits Hl|l s Hl|l ws vs Hl Hall
                    |l es entries Hl Hall]; simpl; rewrite ?Hl; simpl.
  1-5: rewrite andb_false_r; simpl; rewrite ?Hl; simpl;
    eexists; (split; [done|]); apply repr_none.
  - rewrite andb_true_r. destruct (isdigit key); simpl; rewrite ?Hl; simpl.
    + destruct (int key) as [i|e] eqn:Hint; simpl.
      * pose proof (list_getitem_rel h ws vs i Hall) as Hrel.
        destruct (list_getitem ws i) as [w'|e'],
          (Py.list_getitem vs i) as [v'|e'']; simpl in *; try done.
        -- eexists; split; done.
        -- subst e''. destruct (GoogleSearch.caught e');
             eexists; (split; [done|]); simpl; [apply repr_none|done].
      * rewrite (int_raises _ _ Hint). simpl. eexists; split; done.
    + eexists; (split; [done|]); apply repr_none.
  - rewrite andb_false_r. simpl. rewrite ?Hl. simpl. rewrite ?Hl. simpl.
    eexists; split; [done|]. simpl. by apply dict_lookup_rel.
Qed.

Lemma for_keys_rel h w v keys :
  repr h w v →
  ∃ r', for_keys w keys h = Some (r', h) ∧
        result_rel h r' (GoogleSearch.for_keys v keys).
Proof.
  revert w v. induction keys as [|key keys IH]; intros w v Hrepr; simpl.
  - by eexists.
  - destruct (try_body_rel h w v key Hrepr) as (c' & Hrun & Hrel).
    unfold bind at 1. rewrite Hrun.
    destruct c' as [[w'|w']|e'],
      (GoogleSearch.try_body v key) as [[v'|v']|e]; simpl in *; try done.
    + by apply IH.
    + by eexists.
    + by eexists.
Qed.
End HeapFacts.

(** ** [_get_value_safely] *)

Lemma get_value_safely_None keys : Gbiz._get_value_safely VNone keys = Ok VNone.
Proof. by destruct keys. Qed.

(** The helper follows mapping keys and returns [None] for absent. *)
Lemma get_value_safely_refines data keys :
  Gbiz._get_value_safely data keys =
    Ok (default VNone (Spec.lookup_path data keys)).
Proof.
  revert data. induction keys as [|key keys IH]; intros data; [done|].
  destruct data as [| | | | | |entries]; try done. simpl.
  destruct (dict_lookup entries key) as [v|]; simpl; [apply IH|].
  apply get_value_safely_None.
Qed.

(** It too gives up with [None] at the first key it cannot follow. *)
Lemma get_value_safely_fails data pre cursor key rest :
  Spec.lookup_path data pre = Some cursor →
  Spec.lookup_path cursor [key] = None →
  Gbiz._get_value_safely data (pre ++ key :: rest) = Ok VNone.
Proof.
  intros Hpre Hkey. rewrite get_value_safely_refines.
  replace (Spec.lookup_path data (pre ++ key :: rest)) with (@None pyvalue);
    [done|].
  symmetry. revert data Hpre. induction pre as [|k pre IH]; intros data; simpl.
  - intros [= ->]. simpl in Hkey. destruct cursor; try done.
    by destruct (dict_lookup entries key).
  - destruct data; try done.
    destruct (dict_lookup entries k) as [v|]; simpl; [apply IH|done].
Qed.

(** ** ASCII segments under any character table *)

Section Ascii.
Context {ucd : unicode_db}.

Lemma index_of_ascii_digit c :
  (48 ≤ c ≤ 57)%N → Spec.index_of [c] = Some (N.to_nat (c - 48)).
Proof.
  intros Hc. unfold Spec.index_of. simpl. rewrite (ascii_decimal c Hc).
  simpl. f_equal. unfold of_digits. simpl. lia.
Qed.

Lemma int_ascii_digit c :
  (48 ≤ c ≤ 57)%N → int [c] = Ok (Z.of_N (c - 48)).
Proof.
  intros Hc.
  rewrite (index_of_int [c] _ (index_of_ascii_digit c Hc)); [f_equal; lia|].
  unfold too_long. destruct (0 <? max_str_digits)%N eqn:Hpos; [|done].
  apply N.ltb_lt in Hpos. apply N.ltb_ge. simpl. lia.
Qed.

Lemma isdigit_ascii_digit c : (48 ≤ c ≤ 57)%N → isdigit [c] = true.
Proof. intros Hc. eapply index_of_isdigit, index_of_ascii_digit, Hc. Qed.

Lemma isdigit_ascii_other c key :
  c ∈ key → (c < 128)%N → ¬ (48 ≤ c ≤ 57)%N → isdigit key = false.
Proof. intros Hin Hlt Hc. eapply isdigit_false; [done|]. by apply ascii_not_digit. Qed.
End Ascii.

(** One pass through the body on a dict given in full. *)
Ltac dict_step :=
  rewrite try_body_dict;
  match goal with
  | |- context [dict_lookup ?d ?k] =>
      let r := eval vm_compute in (dict_lookup d k) in
      change (dict_lookup d k) with r
  end;
  cbn [default from_option id].

(** ** The statements of the specification *)

Section Claims.
Context {ucd : unicode_db}.
Import GoogleSearch.

(** A string of digit characters one of which has no decimal value makes
    the loop raise when the cursor is a list: [int] raises [ValueError],
    which the [except] clause does not name. *)
Lemma for_keys_digit_without_decimal items key rest :
  isdigit key = true → Spec.index_of key = None →
  for_keys (VList items) (key :: rest) = Raise ValueError.
Proof.
  intros Hd Hi. simpl.
  by rewrite try_body_list, Hd, (index_of_None_int _ Hi).
Qed.

(** Every subscript the loop performs has a non-negative index. *)
Lemma for_keys_log_nonneg value keys container i :
  Subscript container i ∈ for_keys_log value keys → 0 ≤ i.
Proof.
  revert value. induction keys as [|key keys IH]; intros value; simpl.
  - by intros ?%elem_of_nil.
  - intros [Hin|Hin]%elem_of_app.
    + unfold body_log in Hin.
      destruct (isdigit key && isinstance_list value).
      * destruct (int key) as [j|] eqn:Hint; [|by apply elem_of_nil in Hin].
        apply list_elem_of_singleton in Hin as [= _ ->].
        by eapply int_nonneg.
      * destruct (isinstance_dict value);
          [by apply list_elem_of_singleton in Hin|by apply elem_of_nil in Hin].
    + destruct (try_body value key) as [[v|v]|e];
        [by eapply IH|by apply elem_of_nil in Hin..].
Qed.

(** C1 (as amended): for every value [v] and every path [p] in which
    each segment that [str.isdigit] accepts is a literal [int] converts:
    when [p] resolves to a terminal JSON null, [extract] returns [None],
    and [None] is also what it returns for every such path that does not
    resolve.  The absence marker is the null value itself, so the caller
    cannot tell a resolved null from absent. *)
Theorem C1_resolved_null_is_the_absence_marker value path :
  Spec.decimal_keys (split 46 path) →
  Spec.extract value path = Some VNone →
  extract value path = Ok VNone ∧
  ∀ value' path',
    Spec.decimal_keys (split 46 path') →
    Spec.extract value' path' = None →
    extract value' path' = extract value path.
Proof.
  intros Hdec Hres.
  assert (extract value path = Ok VNone) as Hnull
    by (by rewrite (extract_refines _ _ Hdec), Hres).
  split; [done|]. intros value' path' Hdec' Habs.
  by rewrite Hnull, (extract_refines _ _ Hdec'), Habs.
Qed.

(** One pass through the body in normal form: a segment is used as a
    zero-based index only when it passes [isdigit] and the cursor is a
    list; on a dict every segment, digits included, is looked up as a
    key; any other cursor, and a list with a segment that is not made of
    digits, ends the loop with [None]. *)
Lemma try_body_cases value key :
  try_body value key =
    match value with
    | VList items =>
        if isdigit key then
          match int key with
          | Ok i =>
              match items !! Z.to_nat i with
              | Some v => Ok (Next v)
              | None => Ok (Break VNone)
              end
          | Raise e => Raise e
          end
        else Ok (Break VNone)
    | VDict entries => Ok (Next (default VNone (dict_lookup entries key)))
    | _ => Ok (Break VNone)
    end.
Proof.
  destruct value as [| | | | |items|entries];
    try (by apply try_body_other); [|apply try_body_dict].
  rewrite try_body_list. destruct (isdigit key); [|done].
  destruct (int key) as [i|e] eqn:Hint; [done|].
  by rewrite (int_raises _ _ Hint).
Qed.

(** C4: [extract({"a": {"b": [10, 20, 30]}}, "a.b.1")] is [20] and
    [extract({"a": {"b": [10, 20, 30]}}, "a.b.5")] is absent ([None]). *)
Theorem C4_index_in_and_out_of_bounds :
  extract Examples.nested (str "a.b.1") = Ok (VInt 20) ∧
  extract Examples.nested (str "a.b.5") = Ok VNone.
Proof.
  unfold extract, Examples.nested.
  change (split 46 (str "a.b.1")) with [str "a"; str "b"; [49%N]].
  change (split 46 (str "a.b.5")) with [str "a"; str "b"; [53%N]].
  cbn [for_keys]. repeat dict_step.
  rewrite !try_body_list.
  rewrite !isdigit_ascii_digit, !int_ascii_digit by lia.
  done.
Qed.

(** C5 (as amended): on a path in which each segment that [str.isdigit]
    accepts, up to the failing one, is a literal [int] converts: when the
    segments before [key] resolve to [cursor] and [key] fails there
    (missing key, index out of bounds, or a cursor the segment cannot
    traverse), [extract] returns absent whatever segments follow and
    accesses no container after [key].  After an index out of bounds or a
    cursor that cannot be traversed the loop ends at [key]; after a
    missing key [dict.get] leaves [None] and the loop ends one pass later,
    at the segment that follows, if there is one. *)
Theorem C5_first_failure_ends_the_traversal value pre cursor key rest :
  Spec.decimal_keys (pre ++ [key]) →
  Spec.resolve value pre = Some cursor →
  Spec.fails cursor key →
  for_keys value (pre ++ key :: rest) = Ok VNone ∧
  for_keys_log value (pre ++ key :: rest) = for_keys_log value (pre ++ [key]) ∧
  for_keys_passes value (pre ++ key :: rest) =
    (length pre + S match cursor, rest with
                    | VDict _, _ :: _ => 1
                    | _, _ => 0
                    end)%nat.
Proof.
  intros [Hpre Hkey%Forall_inv]%Forall_app Hres Hfail. split_and!.
  - rewrite (resolve_for_keys _ _ _ _ Hpre Hres). by apply for_keys_fails.
  - rewrite !(resolve_for_keys_log _ _ _ _ Hpre Hres).
    by rewrite (for_keys_log_fails _ _ rest Hkey Hfail).
  - rewrite (resolve_for_keys_passes _ _ _ _ Hpre Hres).
    by rewrite (for_keys_passes_fails _ _ _ Hkey Hfail).
Qed.

(** C7: a call of [extract] on a store in which [item] denotes the
    value [v] completes, leaves the store as it was, and returns what
    the function of [v] and the path returns; a second call on the store
    the first one left returns the same result.  Nothing but the value
    and the path enters the result. *)
Theorem C7_extract_is_deterministic_and_reads_only h item v key_path :
  Heap.repr h item v →
  ∃ r, Heap.twice (Heap.extract item key_path) h = Some ((r, r), h) ∧
       Heap.result_rel h r (extract v key_path).
Proof.
  intros Hrepr.
  destruct (for_keys_rel h item v (split 46 key_path) Hrepr) as (r & Hrun & Hrel).
  exists r. split; [|done].
  unfold Heap.twice, Heap.extract. by rewrite !Hrun.
Qed.

(** C9: a segment with a character that is not a digit, such as
    ["-1"], is never used as an index: on a list cursor it ends the
    resolution with absent and no element of the list is read; and
    every index the loop ever uses is non-negative, so no element is
    addressed from the end of a list. *)
Theorem C9_no_index_from_the_end items key rest c :
  c ∈ key → to_digit c = None →
  for_keys (VList items) (key :: rest) = Ok VNone ∧
  for_keys_log (VList items) (key :: rest) = [] ∧
  ∀ value keys container i,
    Subscript container i ∈ for_keys_log value keys → 0 ≤ i.
Proof.
  intros Hc Hnone. pose proof (isdigit_false _ _ Hc Hnone) as Hd.
  split_and!.
  - simpl. by rewrite try_body_list, Hd.
  - simpl. rewrite try_body_list, Hd. unfold body_log. by rewrite Hd.
  - apply for_keys_log_nonneg.
Qed.

(** C10: no path is rejected for its form.  The empty path splits into
    one empty segment and consecutive dots leave an empty segment
    between them; an empty segment is never an index: it is looked up
    as a key when the cursor is a dict and yields absent otherwise.  So
    [extract({"": 1}, "")] is [1], and [extract(v, "")] never raises. *)
Theorem C10_empty_segments_are_ordinary_keys :
  split 46 [] = [[]] ∧
  (∀ a b, split 46 (a ++ [46; 46]%N ++ b) = split 46 a ++ [[]] ++ split 46 b) ∧
  (∀ value rest,
     for_keys value ([] :: rest) =
       match value with
       | VDict entries => for_keys (default VNone (dict_lookup entries [])) rest
       | _ => Ok VNone
       end) ∧
  extract Examples.empty_key (str "") = Ok (VInt 1) ∧
  (∀ value,
     extract value (str "") =
       Ok match value with
          | VDict entries => default VNone (dict_lookup entries [])
          | _ => VNone
          end).
Proof.
  split_and!.
  - done.
  - intros a b. change (a ++ [46; 46]%N ++ b) with (a ++ 46%N :: [] ++ 46%N :: b).
    by rewrite !split_app.
  - intros value rest. cbn [for_keys].
    destruct value;
      by rewrite ?try_body_dict, ?try_body_list, ?try_body_other by done.
  - done.
  - intros value. unfold extract. change (split 46 (str "")) with [[] : pystr].
    cbn [for_keys].
    destruct value;
      by rewrite ?try_body_dict, ?try_body_list, ?try_body_other by done.
Qed.
End Claims.

(** C8: with an empty list of keys [_get_value_safely] returns [data]
    itself: the same value, and over the store the same reference with
    the store untouched. *)
Theorem C8_empty_key_list_is_identity data :
  Gbiz._get_value_safely data [] = Ok data ∧
  ∀ h w, Heap._get_value_safely w [] h = Some (Ok w, h).
Proof. split; [reflexivity|]. intros h w. reflexivity. Qed.

(** ** Closed instances, on Latin-1 text *)

(** C1 (as stated, refuted): in [{"a": None}] the path ["a"] resolves to
    a JSON null and in [{}] it does not resolve, yet [extract] returns
    the same [None] for both. *)
Lemma C1_null_and_absent_coincide :
  Spec.extract (ucd:=latin1) Examples.null_field (str "a") = Some VNone ∧
  Spec.extract (ucd:=latin1) (VDict []) (str "a") = None ∧
  GoogleSearch.extract (ucd:=latin1) Examples.null_field (str "a") = Ok VNone ∧
  GoogleSearch.extract (ucd:=latin1) (VDict []) (str "a") = Ok VNone.
Proof. by vm_compute. Qed.

Lemma C1_witness :
  (Spec.decimal_keys (ucd:=latin1) (split 46 (str "a")) ∧
   Spec.extract (ucd:=latin1) Examples.null_field (str "a") = Some VNone) ∧
  (GoogleSearch.extract (ucd:=latin1) Examples.null_field (str "a") = Ok VNone ∧
   ∀ value' path',
     Spec.decimal_keys (ucd:=latin1) (split 46 path') →
     Spec.extract (ucd:=latin1) value' path' = None →
     GoogleSearch.extract (ucd:=latin1) value' path' =
       GoogleSearch.extract (ucd:=latin1) Examples.null_field (str "a")).
Proof.
  assert (Spec.decimal_keys (ucd:=latin1) (split 46 (str "a"))) as Hdec
    by (by repeat constructor).
  split; [split; [exact Hdec|reflexivity]|].
  exact (C1_resolved_null_is_the_absence_marker (ucd:=latin1)
           Examples.null_field (str "a") Hdec eq_refl).
Defined.

(** C2 (where the code departs from it): on [{"x": [1]}] the path
    ["x.²"] makes [extract] raise [ValueError]: SUPERSCRIPT TWO passes
    [isdigit], [int] rejects it, and the [except] clause lets the error
    through. *)
Theorem C2_digit_without_decimal_value_raises :
  GoogleSearch.extract (ucd:=latin1) Examples.x_list Examples.x_superscript
    = Raise ValueError.
Proof. reflexivity. Qed.

(** C3 (where the code departs from it): the segment ["²"] is not made
    of decimal digits, so it is to be looked up as a mapping key: found
    on a dict that has it, absent on any cursor that is not a dict.  The
    code does so on a dict and on a scalar; on a list it takes the
    segment for an index, because [isdigit] accepts it, and lets the
    [ValueError] of [int] out instead of giving absent.  The same error
    leaves the loop for a segment of decimal digits too long for [int],
    which is then no index either. *)
Theorem C3_undecimal_digits_on_a_list_raise :
  GoogleSearch.extract (ucd:=latin1)
    (VDict [(str "x", VDict [([178%N], VInt 7)])]) Examples.x_superscript
    = Ok (VInt 7) ∧
  GoogleSearch.extract (ucd:=latin1) Examples.x_one Examples.x_superscript
    = Ok VNone ∧
  (∀ items rest,
     GoogleSearch.for_keys (ucd:=latin1) (VDict [(str "x", VList items)])
       (str "x" :: [178%N] :: rest) = Raise ValueError) ∧
  (∀ items rest,
     GoogleSearch.for_keys (ucd:=latin1) (VDict [(str "x", VList items)])
       (str "x" :: Examples.long_index :: rest) = Raise ValueError).
Proof.
  split_and!; [reflexivity..| |]; intros items rest.
  - rewrite (for_keys_cons (ucd:=latin1)).
    change (dict_lookup _ (str "x")) with (Some (VList items)).
    cbn [default from_option id]. by rewrite (for_keys_cons (ucd:=latin1)).
  - rewrite (for_keys_cons (ucd:=latin1)).
    change (dict_lookup _ (str "x")) with (Some (VList items)).
    cbn [default from_option id]. rewrite (for_keys_cons (ucd:=latin1)).
    replace (isdigit (ucd:=latin1) Examples.long_index) with true
      by (by vm_compute).
    by replace (int (ucd:=latin1) Examples.long_index)
      with (@Raise Z ValueError) by (by vm_compute).
Qed.

(** C5 (as stated, refuted): in [{"a": {"b": 1}}] the path ["a.c.d"]
    fails at ["c"], a missing key, and the loop still makes a third pass,
    for ["d"]. *)
Lemma C5_a_missing_key_takes_one_more_pass :
  Spec.resolve (ucd:=latin1) Examples.leaf [str "a"]
    = Some (VDict [(str "b", VInt 1)]) ∧
  Spec.fails (ucd:=latin1) (VDict [(str "b", VInt 1)]) (str "c") ∧
  GoogleSearch.for_keys_passes (ucd:=latin1) Examples.leaf
    (split 46 (str "a.c.d")) = 3%nat.
Proof.
  split_and!; [reflexivity| |reflexivity].
  apply Spec.missing_key. reflexivity.
Qed.

Lemma C5_witness :
  (Spec.decimal_keys (ucd:=latin1) [str "a"; str "c"] ∧
   Spec.resolve (ucd:=latin1) Examples.leaf [str "a"]
     = Some (VDict [(str "b", VInt 1)]) ∧
   Spec.fails (ucd:=latin1) (VDict [(str "b", VInt 1)]) (str "c")) ∧
  (GoogleSearch.for_keys (ucd:=latin1) Examples.leaf (split 46 (str "a.c.d"))
     = Ok VNone ∧
   GoogleSearch.for_keys_log (ucd:=latin1) Examples.leaf (split 46 (str "a.c.d"))
     = GoogleSearch.for_keys_log (ucd:=latin1) Examples.leaf (split 46 (str "a.c")) ∧
   GoogleSearch.for_keys_passes (ucd:=latin1) Examples.leaf
     (split 46 (str "a.c.d")) = 3%nat).
Proof.
  assert (Spec.decimal_keys (ucd:=latin1) [str "a"; str "c"]) as Hdec
    by (by repeat constructor).
  assert (Spec.fails (ucd:=latin1) (VDict [(str "b", VInt 1)]) (str "c")) as Hfail.
  { apply Spec.missing_key. reflexivity. }
  split; [split_and!; [exact Hdec|reflexivity|exact Hfail]|].
  exact (C5_first_failure_ends_the_traversal (ucd:=latin1) Examples.leaf
           [str "a"] (VDict [(str "b", VInt 1)]) (str "c") [str "d"]
           Hdec eq_refl Hfail).
Defined.

(** C6 (where the code departs from it): with the one path ["x.²"] the
    item [{"x": 1}] alone gives a table, and the item [{"x": [1]}] after
    it makes the whole call raise [ValueError]: no table is returned. *)
Theorem C6_one_item_fails_the_batch :
  GoogleSearch.preprocess_to_dataframe (ucd:=latin1)
    [Examples.x_one] [Examples.x_superscript]
    = Ok [[(Examples.x_superscript, VNone)]] ∧
  GoogleSearch.preprocess_to_dataframe (ucd:=latin1)
    [Examples.x_one; Examples.x_list] [Examples.x_superscript]
    = Raise ValueError.
Proof. split; reflexivity. Qed.

Lemma C7_witness :
  ∃ r,
    Heap.twice (Heap.extract (ucd:=latin1) (Heap.WRef 1%positive) (str "a.0"))
      Examples.store = Some ((r, r), Examples.store) ∧
    Heap.result_rel Examples.store r
      (GoogleSearch.extract (ucd:=latin1)
         (VDict [(str "a", VList [VInt 7; VNone])]) (str "a.0")).
Proof.
  apply (C7_extract_is_deterministic_and_reads_only (ucd:=latin1)).
  eapply Heap.repr_dict; [reflexivity|].
  repeat constructor; simpl.
  eapply Heap.repr_list; [reflexivity|].
  repeat constructor.
Defined.

Lemma C9_witness :
  (45%N ∈ str "-1" ∧ to_digit (unicode_db:=latin1) 45 = None) ∧
  (GoogleSearch.for_keys (ucd:=latin1) (VList [VInt 10; VInt 20]) [str "-1"]
     = Ok VNone ∧
   GoogleSearch.for_keys_log (ucd:=latin1) (VList [VInt 10; VInt 20]) [str "-1"]
     = [] ∧
   ∀ value keys container i,
     GoogleSearch.Subscript container i
       ∈ GoogleSearch.for_keys_log (ucd:=latin1) value keys → 0 ≤ i).
Proof.
  assert (45%N ∈ str "-1") as Hin by (vm_compute; constructor).
  split; [split; [exact Hin|reflexivity]|].
  exact (C9_no_index_from_the_end (ucd:=latin1) [VInt 10; VInt 20] (str "-1")
           [] 45%N Hin eq_refl).
Defined.

(** The table of the specification's example:
    [buildTable([{"x": 1}, {}], ["x"])] has the rows [{x: 1}] and
    [{x: None}]. *)
Example table_of_two_items :
  GoogleSearch.preprocess_to_dataframe (ucd:=latin1)
    [Examples.x_one; VDict []] [str "x"]
    = Ok [[(str "x", VInt 1)]; [(str "x", VNone)]].
Proof. reflexivity. Qed.

(** A key made of digits is still a key when the cursor is a dict:
    [extract({"0": 5}, "0")] is [5]. *)
Example digit_key_on_dict :
  GoogleSearch.extract (ucd:=latin1) Examples.digit_key (str "0") = Ok (VInt 5).
Proof. reflexivity. Qed.

(** * Further properties of the code *)

(** ** Paths and segments *)

Lemma split_no_sep sep s seg : seg ∈ split sep s → sep ∉ seg.
Proof.
  revert seg. induction s as [|c s IH]; intros seg; simpl.
  - intros ->%list_elem_of_singleton. apply not_elem_of_nil.
  - destruct (c =? sep)%N eqn:Hc.
    + intros [->|Hin]%elem_of_cons; [apply not_elem_of_nil|by apply IH].
    + pose proof (split_nonempty sep s) as Hne.
      destruct (split sep s) as [|piece pieces]; [done|].
      intros [->|Hin]%elem_of_cons.
      * intros [->|Hin]%elem_of_cons; [by rewrite N.eqb_refl in Hc|].
        by apply (IH piece); [left|].
      * apply IH. by right.
Qed.

Lemma split_no_sep_id sep s : sep ∉ s → split sep s = [s].
Proof.
  induction s as [|c s IH]; [done|]. intros Hnotin.
  apply not_elem_of_cons in Hnotin as [Hne Hnotin]. simpl.
  destruct (c =? sep)%N eqn:Hc; [apply N.eqb_eq in Hc; congruence|].
  by rewrite IH.
Qed.

Section MoreLoopFacts.
Context {ucd : unicode_db}.
Import GoogleSearch.

Lemma try_body_break value key v : try_body value key = Ok (Break v) → v = VNone.
Proof.
  destruct value as [| | | | |items|entries].
  1-5: by rewrite try_body_other by done; intros [= <-].
  - rewrite try_body_list. destruct (isdigit key); [|by intros [= <-]].
    destruct (int key) as [i|]; [|done].
    by destruct (items !! Z.to_nat i); [|intros [= <-]].
  - by rewrite try_body_dict.
Qed.

Lemma try_body_raise value key e :
  try_body value key = Raise e →
  e = ValueError ∧
  ∃ items, value = VList items ∧ isdigit key = true ∧ int key = Raise ValueError.
Proof.
  destruct value as [| | | | |items|entries].
  1-5: by rewrite try_body_other.
  - rewrite try_body_list. destruct (isdigit key); [|done].
    destruct (int key) as [i|e'] eqn:Hint;
      [by destruct (items !! Z.to_nat i)|].
    intros [= <-]. split; [done|]. exists items. split_and!; [done..|].
    by rewrite (int_raises _ _ Hint).
  - by rewrite try_body_dict.
Qed.

Lemma try_body_list_raise items key :
  isdigit key = true → int key = Raise ValueError →
  try_body (VList items) key = Raise ValueError.
Proof. intros Hd Hint. by rewrite try_body_list, Hd, Hint. Qed.

(** The loop over a concatenation is the loop over the first part, then
    over the second from where the first one stopped. *)
Lemma for_keys_app value ks1 ks2 :
  for_keys value (ks1 ++ ks2) = for_keys value ks1 ≫= λ v, for_keys v ks2.
Proof.
  revert value. induction ks1 as [|key ks1 IH]; intros value; [done|].
  simpl. destruct (try_body value key) as [[v|v]|e] eqn:Hbody; [apply IH| |done].
  apply try_body_break in Hbody as ->. simpl. by rewrite for_keys_None.
Qed.

Lemma for_keys_scalar value keys :
  isinstance_list value = false → isinstance_dict value = false →
  keys ≠ [] → for_keys value keys = Ok VNone.
Proof.
  intros Hl Hd Hne. destruct keys as [|key keys]; [done|].
  simpl. by rewrite try_body_other.
Qed.
End MoreLoopFacts.

Section ExtractExtras.
Context {ucd : unicode_db}.
Import GoogleSearch.

(** X1: the only exception [extract] lets out is [ValueError], and it
    does so exactly when the segments before some segment lead to a list
    and that segment passes [isdigit] while [int] rejects it. *)
Theorem X1_extract_raises_exactly_on_undecimal_digits item key_path e :
  extract item key_path = Raise e ↔
  e = ValueError ∧
  ∃ pre key rest items,
    split 46 key_path = pre ++ key :: rest ∧
    for_keys item pre = Ok (VList items) ∧
    isdigit key = true ∧ int key = Raise ValueError.
Proof.
  unfold extract. generalize (split 46 key_path) as keys. intros keys. split.
  - revert item. induction keys as [|key keys IH]; intros item; [done|].
    simpl. destruct (try_body item key) as [[v|v]|e'] eqn:Hbody; [|done|].
    + intros (He & pre & k & rest & items & Hsplit & Hpre & Hk)%IH.
      split; [done|]. exists (key :: pre), k, rest, items.
      split_and!; [by rewrite Hsplit| |apply Hk..].
      simpl. by rewrite Hbody.
    + intros [= ->]. apply try_body_raise in Hbody as (-> & items & -> & Hd & Hi).
      split; [done|]. by exists [], key, keys, items.
  - intros (-> & pre & key & rest & items & -> & Hpre & Hd & Hint).
    rewrite for_keys_app, Hpre. simpl.
    by rewrite (try_body_list_raise _ _ Hd Hint).
Qed.

(** X2: an item that is neither a dict nor a list gives [None] for every
    key path and never an exception. *)
Theorem X2_scalar_item_gives_none item key_path :
  isinstance_dict item = false → isinstance_list item = false →
  extract item key_path = Ok VNone.
Proof.
  intros Hd Hl. apply for_keys_scalar; [done..|apply split_nonempty].
Qed.

(** X3: extracting along [p1.p2] is extracting along [p1] and then along
    [p2] from the value found (a failure of the first stage is [None], and
    [None] stays [None]). *)
Theorem X3_extract_composes item p1 p2 :
  extract item (p1 ++ 46%N :: p2) = extract item p1 ≫= λ v, extract v p2.
Proof. unfold extract. by rewrite split_app, for_keys_app. Qed.

(** X4: on a list, an index written with a leading zero addresses the
    same element, ["01"] is ["1"], as long as the longer literal is within
    the limit of [int]. *)
Theorem X4_leading_zero_is_ignored items key rest :
  isdigit key = true → too_long (48%N :: key) = false →
  for_keys (VList items) ((48%N :: key) :: rest) =
    for_keys (VList items) (key :: rest).
Proof.
  intros Hd Hlong.
  assert (isdigit (48%N :: key) = true) as Hd0.
  { destruct key as [|c key]; [done|]. unfold isdigit in *.
    change (forallb ?f (48%N :: ?l)) with (f 48%N && forallb f l).
    rewrite Hd, andb_true_r. apply bool_decide_eq_true.
    exists 0%N. apply decimal_is_digit. by rewrite ascii_decimal by lia. }
  assert (int (48%N :: key) = int key) as Hint.
  { destruct key as [|c key]; [done|]. unfold int.
    rewrite Hlong, (too_long_tail _ _ Hlong).
    change (mapM to_decimal (48%N :: c :: key))
      with (to_decimal 48%N ≫= λ d, mapM to_decimal (c :: key) ≫= λ ds, mret (d :: ds)).
    rewrite ascii_decimal by lia. simpl.
    by destruct (to_decimal c ≫= _) as [ds|]. }
  cbn [for_keys]. unfold try_body, body. by rewrite Hd, Hd0, Hint.
Qed.

(** X5: a key that contains a dot cannot be addressed: on a dict all of
    whose keys contain a dot, every key path gives [None]. *)
Theorem X5_dotted_keys_are_unreachable entries key_path :
  Forall (λ kv, 46%N ∈ kv.1) entries →
  extract (VDict entries) key_path = Ok VNone.
Proof.
  intros Hdots. unfold extract.
  pose proof (split_no_sep 46 key_path) as Hseg.
  destruct (split 46 key_path) as [|key keys] eqn:Hs;
    [by apply split_nonempty in Hs|].
  cbn [for_keys]. rewrite try_body_dict.
  replace (dict_lookup entries key) with (@None pyvalue);
    [apply for_keys_None|].
  symmetry. specialize (Hseg key (list_elem_of_here _ _)).
  induction Hdots as [|[k v] entries Hk _ IH]; [done|]. simpl in *.
  rewrite decide_False; [done|]. by intros ->.
Qed.

(** X6: on a dict, a key path without a dot is [item.get(key_path)],
    digits or not. *)
Theorem X6_dot_free_path_is_get entries key_path :
  46%N ∉ key_path →
  extract (VDict entries) key_path = get (VDict entries) key_path.
Proof.
  intros Hdot. unfold extract. rewrite split_no_sep_id by done.
  cbn [for_keys]. by rewrite try_body_dict.
Qed.
End ExtractExtras.

(** ** Rows and tables *)

Lemma dict_setitem_keys row key value :
  (dict_setitem row key value).*1 =
    if decide (key ∈ row.*1) then row.*1 else row.*1 ++ [key].
Proof.
  induction row as [|[k v] row IH]; [done|]. cbn [dict_setitem].
  destruct (decide (k = key)) as [->|Hne]; rewrite !fmap_cons; cbn [fst].
  - by rewrite decide_True by left.
  - rewrite IH. destruct (decide (key ∈ row.*1)) as [Hin|Hnotin].
    + by rewrite decide_True by (by right).
    + rewrite decide_False; [done|].
      by intros [?|?]%elem_of_cons.
Qed.

Lemma dict_setitem_elem row key value p v :
  (p, v) ∈ dict_setitem row key value → (p, v) = (key, value) ∨ (p, v) ∈ row.
Proof.
  induction row as [|[k w] row IH]; simpl.
  - intros ->%list_elem_of_singleton. by left.
  - destruct (decide (k = key)) as [->|Hne].
    + intros [->|Hin]%elem_of_cons; [by left|right; by right].
    + intros [->|Hin]%elem_of_cons; [right; by left|].
      destruct (IH Hin) as [?|?]; [by left|right; by right].
Qed.

Section TableExtras.
Context {ucd : unicode_db}.
Import GoogleSearch.

Lemma extract_raise item key_path e : extract item key_path = Raise e → e = ValueError.
Proof.
  unfold extract. generalize (split 46 key_path) as keys. intros keys.
  revert item. induction keys as [|key keys IH]; intros item; [done|].
  simpl. destruct (try_body item key) as [[v|v]|e'] eqn:Hbody; [apply IH|done|].
  intros [= ->]. by apply try_body_raise in Hbody as [-> _].
Qed.

Lemma for_key_paths_cells item paths row0 row :
  NoDup (row0.*1 ++ paths) → for_key_paths item paths row0 = Ok row →
  ∃ new, row = row0 ++ new ∧
         Forall2 (λ p kv, kv.1 = p ∧ extract item p = Ok kv.2) paths new.
Proof.
  revert row0. induction paths as [|p paths IH]; intros row0 Hnd; simpl.
  - intros [= <-]. exists []. by rewrite app_nil_r.
  - destruct (extract item p) as [v|e] eqn:Hp; simpl; [|done].
    apply NoDup_app in Hnd as (Hrow & Hdisj & Hpaths).
    rewrite dict_setitem_fresh by (intros Hin; eapply Hdisj; [done|left]).
    intros Hrest. apply IH in Hrest as (new & -> & Hnew).
    + exists ((p, v) :: new). split; [by rewrite <-(assoc_L (++))|].
      by constructor.
    + rewrite fmap_app. simpl. rewrite <-(assoc_L (++)). simpl.
      apply NoDup_app. split_and!; [done| |done].
      intros q Hq. by apply Hdisj.
Qed.

Lemma for_items_acc items paths acc :
  for_items items paths acc =
    for_items items paths [] ≫= λ rows, Ok (acc ++ rows).
Proof.
  revert acc. induction items as [|item items IH]; intros acc; simpl.
  - by rewrite app_nil_r.
  - destruct (for_key_paths item paths []) as [row|e]; simpl; [|done].
    rewrite (IH (acc ++ [row])), (IH [row]).
    destruct (for_items items paths []) as [rows|e]; simpl; [|done].
    by rewrite <-(assoc_L (++)).
Qed.

Lemma preprocess_cons item items paths :
  preprocess_to_dataframe (item :: items) paths =
    for_key_paths item paths [] ≫= λ row,
    preprocess_to_dataframe items paths ≫= λ rows, Ok (row :: rows).
Proof.
  unfold preprocess_to_dataframe. simpl.
  destruct (for_key_paths item paths []) as [row|e]; simpl; [|done].
  by rewrite for_items_acc.
Qed.

(** The invariant of the row under construction: distinct columns, each
    holding what [extract] returns for it. *)
Lemma for_key_paths_invariant item paths row0 row :
  NoDup row0.*1 → (∀ p v, (p, v) ∈ row0 → extract item p = Ok v) →
  for_key_paths item paths row0 = Ok row →
  NoDup row.*1 ∧
  (∀ p, p ∈ row.*1 ↔ p ∈ row0.*1 ∨ p ∈ paths) ∧
  (∀ p v, (p, v) ∈ row → extract item p = Ok v).
Proof.
  revert row0. induction paths as [|q paths IH]; intros row0 Hnd Hcells; simpl.
  - intros [= <-]. split_and!; [done| |done].
    intros p. split; [by left|]. by intros [?|?%elem_of_nil].
  - destruct (extract item q) as [w|e] eqn:Hq; simpl; [|done].
    intros Hrest. apply IH in Hrest as (Hnd' & Hkeys & Hcells').
    + split_and!; [done| |done].
      intros p. rewrite Hkeys, dict_setitem_keys.
      destruct (decide (q ∈ row0.*1)) as [Hin|Hnotin].
      * rewrite elem_of_cons. split; [intros [?|?]; auto|].
        intros [?|[->|?]]; auto.
      * rewrite elem_of_app, list_elem_of_singleton, elem_of_cons.
        split; [intros [[?|?]|?]; auto|intros [?|[?|?]]; auto].
    + rewrite dict_setitem_keys. destruct (decide (q ∈ row0.*1)); [done|].
      apply NoDup_app. split_and!; [done| |apply NoDup_singleton].
      by intros p Hp ->%list_elem_of_singleton.
    + intros p v [[= -> ->]|Hin]%dict_setitem_elem; [done|by apply Hcells].
Qed.

Lemma for_key_paths_raise item paths row0 e :
  for_key_paths item paths row0 = Raise e →
  ∃ p, p ∈ paths ∧ extract item p = Raise e.
Proof.
  revert row0. induction paths as [|q paths IH]; intros row0; simpl; [done|].
  destruct (extract item q) as [w|e'] eqn:Hq; simpl.
  - intros (p & Hp & He)%IH. exists p. split; [by right|done].
  - intros [= ->]. exists q. split; [by left|done].
Qed.

Lemma for_key_paths_ok item paths row0 row :
  for_key_paths item paths row0 = Ok row →
  ∀ p, p ∈ paths → ∃ v, extract item p = Ok v.
Proof.
  revert row0. induction paths as [|q paths IH]; intros row0; simpl.
  - by intros _ p ?%elem_of_nil.
  - destruct (extract item q) as [w|e'] eqn:Hq; simpl; [|done].
    intros Hrest p [->|Hp]%elem_of_cons; [by exists w|by eapply IH].
Qed.

(** X7: when [keys_to_extract] has no repetition and the call returns,
    there is one row per item, in the order of the items, and every row has
    one column per key path, in the order of the key paths, holding what
    [extract] returns for that item and that path. *)
Theorem X7_table_rows_and_columns items paths rows :
  NoDup paths →
  preprocess_to_dataframe items paths = Ok rows →
  Forall2
    (λ item row,
       Forall2 (λ p kv, kv.1 = p ∧ extract item p = Ok kv.2) paths row)
    items rows.
Proof.
  intros Hnd. revert rows. induction items as [|item items IH]; intros rows.
  - intros [= <-]. constructor.
  - rewrite preprocess_cons.
    destruct (for_key_paths item paths []) as [row|e] eqn:Hrow; simpl; [|done].
    destruct (preprocess_to_dataframe items paths) as [rows'|e]; simpl; [|done].
    intros [= <-]. constructor; [|by apply IH].
    by apply for_key_paths_cells in Hrow as (new & -> & Hnew).
Qed.

(** X8: a key path listed more than once gives one column: whenever the
    call returns, there is one row per item, and in every row the columns
    are distinct, are exactly the key paths given, and hold what [extract]
    returns for them. *)
Theorem X8_repeated_paths_give_one_column items paths rows :
  preprocess_to_dataframe items paths = Ok rows →
  Forall2
    (λ item row,
       NoDup row.*1 ∧ (∀ p, p ∈ row.*1 ↔ p ∈ paths) ∧
       ∀ p v, (p, v) ∈ row → extract item p = Ok v)
    items rows.
Proof.
  revert rows. induction items as [|item items IH]; intros rows.
  - intros [= <-]. constructor.
  - rewrite preprocess_cons.
    destruct (for_key_paths item paths []) as [row|e] eqn:Hrow; simpl; [|done].
    destruct (preprocess_to_dataframe items paths) as [rows'|e]; simpl; [|done].
    intros [= <-]. constructor; [|by apply IH].
    apply for_key_paths_invariant in Hrow as (Hnd & Hkeys & Hcells).
    + split_and!; [done| |done]. intros p. rewrite Hkeys.
      split; [by intros [?%elem_of_nil|?]|by right].
    + constructor.
    + by intros p v ?%elem_of_nil.
Qed.

(** X9: the rows of two batches put together are the rows of the first
    followed by the rows of the second: a row depends on its item
    only. *)
Theorem X9_rows_of_a_concatenation items1 items2 paths :
  preprocess_to_dataframe (items1 ++ items2) paths =
    preprocess_to_dataframe items1 paths ≫= λ rows1,
    preprocess_to_dataframe items2 paths ≫= λ rows2,
    Ok (rows1 ++ rows2).
Proof.
  induction items1 as [|item items1 IH]; simpl.
  - unfold preprocess_to_dataframe. simpl.
    by destruct (for_items items2 paths []).
  - rewrite !preprocess_cons, IH.
    destruct (for_key_paths item paths []) as [row|e]; simpl; [|done].
    destruct (preprocess_to_dataframe items1 paths) as [rows1|e]; simpl; [|done].
    by destruct (preprocess_to_dataframe items2 paths).
Qed.

Lemma preprocess_raise_cell items paths e :
  preprocess_to_dataframe items paths = Raise e →
  ∃ item p, item ∈ items ∧ p ∈ paths ∧ extract item p = Raise e.
Proof.
  induction items as [|item items IH]; [done|].
  rewrite preprocess_cons.
  destruct (for_key_paths item paths []) as [row|e0] eqn:Hrow; simpl.
  - destruct (preprocess_to_dataframe items paths) as [rows'|e0]; [done|].
    simpl. intros [= <-]. destruct (IH eq_refl) as (i & p & Hi & Hp & He).
    exists i, p. split_and!; [by right|done..].
  - intros [= <-]. apply for_key_paths_raise in Hrow as (p & Hp & He).
    exists item, p. split_and!; [by left|done..].
Qed.

Lemma extract_raise_digit item key_path e :
  extract item key_path = Raise e →
  ∃ key, key ∈ split 46 key_path ∧ isdigit key = true.
Proof.
  unfold extract. generalize (split 46 key_path) as keys. intros keys.
  revert item. induction keys as [|key keys IH]; intros item; [done|].
  simpl. destruct (try_body item key) as [[v|v]|e'] eqn:Hbody; [|done|].
  - intros (k & Hk & Hd)%IH. exists k. split; [by right|done].
  - intros _. apply try_body_raise in Hbody as (_ & items & _ & Hd & _).
    exists key. split; [by left|done].
Qed.

(** X10: the call raises exactly when [extract] raises for one of the
    items and one of the key paths; a single such cell loses the whole
    table. *)
Theorem X10_batch_fails_iff_a_cell_fails items paths e :
  preprocess_to_dataframe items paths = Raise e ↔
  ∃ item p, item ∈ items ∧ p ∈ paths ∧ extract item p = Raise e.
Proof.
  split; [apply preprocess_raise_cell|].
  intros (item & p & Hitem & Hp & He).
  destruct (preprocess_to_dataframe items paths) as [rows|e'] eqn:Hrun.
  - exfalso. revert rows Hrun.
    induction items as [|i items IH]; intros rows; [by apply elem_of_nil in Hitem|].
    rewrite preprocess_cons.
    destruct (for_key_paths i paths []) as [row|e0] eqn:Hrow; simpl; [|done].
    destruct (preprocess_to_dataframe items paths) as [rows'|e0]; simpl; [|done].
    intros _. apply elem_of_cons in Hitem as [->|Hitem]; [|by eapply IH].
    destruct (for_key_paths_ok _ _ _ _ Hrow p Hp) as [v Hv]. congruence.
  - destruct (preprocess_raise_cell _ _ _ Hrun) as (i' & p' & _ & _ & He').
    apply extract_raise in He as ->. by apply extract_raise in He' as ->.
Qed.

(** X24: key paths none of whose segments passes [isdigit], such as the
    ["title"] and ["snippet"] the script asks for, never make the call
    raise, whatever the items are. *)
Theorem X24_paths_without_digit_segments_never_raise items paths :
  Forall (λ p, Forall (λ key, isdigit key = false) (split 46 p)) paths →
  ∃ rows, preprocess_to_dataframe items paths = Ok rows.
Proof.
  intros Hpaths.
  destruct (preprocess_to_dataframe items paths) as [rows|e] eqn:Hrun;
    [by exists rows|].
  apply preprocess_raise_cell in Hrun as (item & p & _ & Hp & He).
  apply extract_raise_digit in He as (key & Hkey & Hd).
  rewrite Forall_forall in Hpaths. specialize (Hpaths p Hp).
  rewrite Forall_forall in Hpaths. rewrite (Hpaths key Hkey) in Hd. done.
Qed.
End TableExtras.

(** ** The two flatteners side by side *)

Section HelperExtras.
Context {ucd : unicode_db}.
Import GoogleSearch.

(** X11: on keys none of which passes [isdigit], the loop of
    [preprocess_to_dataframe] and [_get_value_safely] return the same. *)
Theorem X11_flatteners_agree_without_digit_keys data keys :
  Forall (λ key, isdigit key = false) keys →
  for_keys data keys = Gbiz._get_value_safely data keys.
Proof.
  intros Hkeys. revert data.
  induction Hkeys as [|key keys Hkey _ IH]; intros data; [done|].
  simpl. destruct data as [| | | | |items|entries].
  1-5: by rewrite try_body_other.
  - by rewrite try_body_list, Hkey.
  - rewrite try_body_dict. simpl. apply IH.
Qed.
End HelperExtras.

(** X12: following [keys1 + keys2] is following [keys1] and then [keys2]
    from the value found. *)
Theorem X12_get_value_safely_composes data keys1 keys2 :
  Gbiz._get_value_safely data (keys1 ++ keys2) =
    Gbiz._get_value_safely data keys1 ≫= λ v, Gbiz._get_value_safely v keys2.
Proof.
  revert data. induction keys1 as [|key keys1 IH]; intros data; [done|].
  simpl. destruct data as [| | | | | |entries]; simpl;
    try (by rewrite get_value_safely_None).
  apply IH.
Qed.

(** X13: [_get_value_safely] never raises, whatever [data] is, and it
    returns something other than [None] only when every key was found in
    a dict on the way, in which case it returns the value at the end. *)
Theorem X13_get_value_safely_never_raises data keys :
  ∃ v, Gbiz._get_value_safely data keys = Ok v ∧
       (v ≠ VNone → Spec.lookup_path data keys = Some v).
Proof.
  rewrite get_value_safely_refines. eexists. split; [done|].
  by destruct (Spec.lookup_path data keys).
Qed.

(** ** [get_google_search_results] *)

Section SearchFetchFacts.
Import PyObject SearchFetch.
Context {service : Type} (execute : service → request → reply * service).
Context (keyword custom_search_engine_id : pystr) (num_of_results : Z).

Local Abbreviation pages_from n svc start_index :=
  (for_pages execute keyword custom_search_engine_id num_of_results
     n svc start_index [] []).

(** What has been gathered so far is only ever added to. *)
Lemma for_pages_acc n svc start_index acc calls0 :
  for_pages execute keyword custom_search_engine_id num_of_results
    n svc start_index acc calls0 =
  Run _ (acc ++ results (pages_from n svc start_index))
        (calls0 ++ calls (pages_from n svc start_index))
        (printed (pages_from n svc start_index))
        (final (pages_from n svc start_index)).
Proof.
  revert svc start_index acc calls0.
  induction n as [|n IH]; intros svc start_index acc calls0; simpl.
  - by rewrite !app_nil_r.
  - destruct (execute svc _) as [[response| |] svc']; simpl;
      rewrite ?app_nil_r; try done.
    destruct (page_items response) as [[new|]|e]; simpl;
      rewrite ?app_nil_r; try done.
    destruct (page_next response) as [[start'|]|e]; simpl; try done.
    rewrite (IH svc' start' (acc ++ new)), (IH svc' start' new).
    simpl. by rewrite <-!(assoc_L (++)).
Qed.

Lemma for_pages_succ n svc start_index :
  pages_from (S n) svc start_index =
    let req := Request keyword custom_search_engine_id (str "lang_ja")
                 num_of_results start_index in
    let rep := (execute svc req).1 in
    let svc' := (execute svc req).2 in
    match rep with
    | HttpError => Run _ [] [(req, rep)] [ApiError] svc'
    | OtherError => Run _ [] [(req, rep)] [UnexpectedError] svc'
    | Response response =>
        match page_items response with
        | Raise _ => Run _ [] [(req, rep)] [UnexpectedError] svc'
        | Ok None => Run _ [] [(req, rep)] [NoMoreResults] svc'
        | Ok (Some new) =>
            match page_next response with
            | Raise _ => Run _ new [(req, rep)] [UnexpectedError] svc'
            | Ok None => Run _ new [(req, rep)] [LastPage] svc'
            | Ok (Some start') =>
                Run _ (new ++ results (pages_from n svc' start'))
                      ((req, rep) :: calls (pages_from n svc' start'))
                      (printed (pages_from n svc' start'))
                      (final (pages_from n svc' start'))
            end
        end
    end.
Proof.
  simpl. destruct (execute svc _) as [[response| |] svc']; simpl; try done.
  destruct (page_items response) as [[new|]|e]; try done.
  destruct (page_next response) as [[start'|]|e]; try done.
  by rewrite for_pages_acc.
Qed.

Local Ltac next_page svc start_index :=
  rewrite for_pages_succ; cbn zeta;
  destruct (execute svc
              (Request keyword custom_search_engine_id (str "lang_ja")
                 num_of_results start_index)) as [[response| |] svc'];
  cbn [fst snd];
  [destruct (page_items response) as [[new|]|e];
   [destruct (page_next response) as [[start'|]|e] eqn:Hnext| |]| |].

(** X14: the call makes at most [page_limit] requests (none when
    [page_limit] is not positive), prints at most one line, and when it
    prints none it has made exactly [page_limit] requests. *)
Theorem X14_requests_are_bounded_by_page_limit svc page_limit :
  let r := get_google_search_results execute keyword custom_search_engine_id
             num_of_results svc page_limit in
  (length (calls r) ≤ Z.to_nat page_limit)%nat ∧
  (length (printed r) ≤ 1)%nat ∧
  (printed r = [] → length (calls r) = Z.to_nat page_limit).
Proof.
  cbn zeta.
  unfold get_google_search_results. generalize (VInt 1) as start_index.
  generalize (Z.to_nat page_limit) as n. intros n. revert svc.
  induction n as [|n IH]; intros svc start_index;
    [simpl; split_and!; [lia|lia|done]|].
  next_page svc start_index; cbn [calls printed length];
    try (split_and!; [lia|lia|done]).
  destruct (IH svc' start') as (Hle & Hone & Hfull).
  split_and!; [lia|done|]. intros Hnone. by rewrite Hfull.
Qed.

(** X15: the list returned is the concatenation, in the order of the
    requests, of the items of every response received whose [items] is
    true and iterable: no page already fetched is lost when a later
    request fails, and nothing else is returned. *)
Theorem X15_results_are_the_items_received svc page_limit :
  let r := get_google_search_results execute keyword custom_search_engine_id
             num_of_results svc page_limit in
  results r = concat (delivered <$> calls r).
Proof.
  cbn zeta.
  unfold get_google_search_results. generalize (VInt 1) as start_index.
  generalize (Z.to_nat page_limit) as n. intros n. revert svc.
  induction n as [|n IH]; intros svc start_index; [done|].
  rewrite for_pages_succ. cbn zeta.
  destruct (execute svc _) as [[response| |] svc']; cbn [fst snd]; try done.
  destruct (page_items response) as [[new|]|e] eqn:Hitems;
    try (by cbn; unfold delivered; cbn; rewrite Hitems).
  destruct (page_next response) as [[start'|]|e];
    cbn [results calls fmap list_fmap concat]; unfold delivered at 1;
    cbn [snd]; rewrite Hitems; [|by rewrite app_nil_r..].
  by rewrite (IH svc' start').
Qed.

(** X16: every request carries the keyword, the engine id, the language
    [lang_ja] and the page size given; the first one asks for start index
    1 and each later one for the [startIndex] of the first [nextPage]
    entry of the response before it. *)
Theorem X16_requests_follow_next_page svc page_limit i req rep :
  let r := get_google_search_results execute keyword custom_search_engine_id
             num_of_results svc page_limit in
  calls r !! i = Some (req, rep) →
  (q req = keyword ∧ cx req = custom_search_engine_id ∧
   lr req = str "lang_ja" ∧ num req = num_of_results) ∧
  (i = 0%nat → start req = VInt 1) ∧
  ∀ req' rep',
    calls r !! S i = Some (req', rep') →
    ∃ response, rep = Response response ∧
                page_next response = Ok (Some (start req')).
Proof.
  cbn zeta.
  unfold get_google_search_results. generalize (VInt 1) as start_index.
  generalize (Z.to_nat page_limit) as n. intros n. revert svc i req rep.
  induction n as [|n IH]; intros svc i req rep start_index; [done|].
  next_page svc start_index; cbn [calls];
    try (destruct i as [|i]; [|done]; intros [= <- <-];
         split_and!; done).
  destruct i as [|i]; cbn [lookup list_lookup].
  - intros [= <- <-]. split_and!; try done.
    intros req' rep' Hnext'. exists response. split; [done|].
    destruct (IH svc' 0%nat req' rep' start' Hnext') as (_ & -> & _); done.
  - intros Hi. destruct (IH svc' i req rep start' Hi) as (Hconst & _ & Hchain).
    split; [exact Hconst|]. split; [done|exact Hchain].
Qed.

Lemma for_pages_stable n svc start_index :
  printed (pages_from n svc start_index) ≠ [] →
  pages_from (S n) svc start_index = pages_from n svc start_index.
Proof.
  revert svc start_index. induction n as [|n IH]; intros svc start_index; [done|].
  rewrite (for_pages_succ (S n)), (for_pages_succ n). cbn zeta.
  destruct (execute svc _) as [[response| |] svc']; cbn [fst snd]; try done.
  destruct (page_items response) as [[new|]|e]; try done.
  destruct (page_next response) as [[start'|]|e]; try done.
  cbn [printed]. intros Hstop. by rewrite (IH svc' start' Hstop).
Qed.

Lemma for_pages_prefix n svc start_index :
  results (pages_from n svc start_index)
    `prefix_of` results (pages_from (S n) svc start_index) ∧
  calls (pages_from n svc start_index)
    `prefix_of` calls (pages_from (S n) svc start_index).
Proof.
  revert svc start_index. induction n as [|n IH]; intros svc start_index.
  - split; apply prefix_nil.
  - rewrite (for_pages_succ (S n)), (for_pages_succ n). cbn zeta.
    destruct (execute svc _) as [[response| |] svc']; cbn [fst snd]; try done.
    destruct (page_items response) as [[new|]|e]; try done.
    destruct (page_next response) as [[start'|]|e]; try done.
    cbn [results calls]. destruct (IH svc' start') as [Hres Hcalls].
    split; [by apply prefix_app|by apply prefix_cons].
Qed.

(** X17: asking for more pages only adds to the end: with a larger
    [page_limit] and the service in the same state, the results and the
    requests of the smaller call are a prefix of those of the larger one;
    and a call that printed a line (it stopped on its own) is repeated
    unchanged by any larger [page_limit]. *)
Theorem X17_more_pages_extend_the_results svc page_limit page_limit' :
  page_limit ≤ page_limit' →
  let r := get_google_search_results execute keyword custom_search_engine_id
             num_of_results svc page_limit in
  let r' := get_google_search_results execute keyword custom_search_engine_id
              num_of_results svc page_limit' in
  results r `prefix_of` results r' ∧ calls r `prefix_of` calls r' ∧
  (printed r ≠ [] → r' = r).
Proof.
  intros Hle. cbn zeta. unfold get_google_search_results.
  assert (Z.to_nat page_limit ≤ Z.to_nat page_limit')%nat as Hn by lia.
  revert Hn. generalize (Z.to_nat page_limit') as m.
  generalize (Z.to_nat page_limit) as n. intros n m Hn.
  induction Hn as [|m Hn (Hres & Hcalls & Hstop)]; [done|].
  destruct (for_pages_prefix m svc (VInt 1)) as [Hres' Hcalls'].
  split_and!; [by etrans|by etrans|].
  intros Hprinted. rewrite for_pages_stable; [by apply Hstop|].
  by rewrite (Hstop Hprinted).
Qed.
End SearchFetchFacts.

(** ** [fetch_data] *)

Lemma result_bind_Ok {A B} (m : result A) (f : A → result B) b :
  m ≫= f = Ok b → ∃ a, m = Ok a ∧ f a = Ok b.
Proof. destruct m as [a|e]; [|done]. intros Hf. by exists a. Qed.

Lemma answered_nil numbers : GbizFetch.answered numbers [] = [].
Proof. by destruct numbers. Qed.

Lemma answered_json number numbers req data calls :
  GbizFetch.answered (number :: numbers) ((req, GbizFetch.Json data) :: calls)
    = (number, data) :: GbizFetch.answered numbers calls.
Proof. done. Qed.

Lemma answered_failed number numbers req calls :
  GbizFetch.answered (number :: numbers)
    ((req, GbizFetch.RequestException) :: calls)
    = GbizFetch.answered numbers calls.
Proof. done. Qed.

Section GbizFetchFacts.
Import PyObject GbizFetch.
Context {service : Type} (get : service → request → reply * service).
Context (self : GbizInfoFetcher).

Local Abbreviation request_for number :=
  (Request (BASE_URL ++ number) (api_token self)).

(** The dict [info] always has the eight keys that [df[[...]]] names, in
    that order, and the first holds the number asked for. *)
Lemma info_columns number data row :
  info number data = Ok row →
  row.*1 = columns ∧ dict_lookup row corporate_number = Some (VStr number).
Proof.
  unfold info. intros Hinfo.
  repeat (apply result_bind_Ok in Hinfo as (? & _ & Hinfo)).
  injection Hinfo as <-. by vm_compute.
Qed.

Lemma finish_good (svc : service) results calls0 printed0 :
  returned (finish svc results calls0 printed0) = Ok results ∧
  calls (finish svc results calls0 printed0) = calls0.
Proof. unfold finish. by destruct results as [|row results]. Qed.

Lemma finish_calls (svc : service) results calls0 printed0 :
  calls (finish svc results calls0 printed0) = calls0.
Proof. apply finish_good. Qed.

(** The requests made from a point of the loop on. *)
Lemma for_numbers_calls numbers svc results calls0 printed0 :
  ∃ new,
    calls (for_numbers get self numbers svc results calls0 printed0)
      = calls0 ++ new ∧
    new.*1 `prefix_of` ((λ number, request_for number) <$> numbers) ∧
    (∀ rows,
       returned (for_numbers get self numbers svc results calls0 printed0)
         = Ok rows →
       new.*1 = (λ number, request_for number) <$> numbers).
Proof.
  revert svc results calls0 printed0.
  induction numbers as [|number numbers IH]; intros svc results calls0 printed0.
  - exists []. simpl. by rewrite finish_calls, app_nil_r.
  - cbn [for_numbers]. destruct (get svc _) as [[data|] svc'].
    + destruct (info number data) as [row|e].
      * destruct (IH svc' (results ++ [row])
                    (calls0 ++ [(request_for number, Json data)])
                    (printed0 ++ [Succeeded number]))
          as (new & -> & Hpre & Hall).
        exists ((request_for number, Json data) :: new).
        split_and!; [by rewrite <-(assoc_L (++))|by apply prefix_cons|].
        intros rows Hrows. rewrite !fmap_cons. cbn [fst]. by rewrite (Hall rows Hrows).
      * exists [(request_for number, Json data)].
        split_and!; [done|apply prefix_cons, prefix_nil|done].
    + destruct (IH svc' results
                  (calls0 ++ [(request_for number, RequestException)])
                  (printed0 ++ [Failed number]))
        as (new & -> & Hpre & Hall).
      exists ((request_for number, RequestException) :: new).
      split_and!; [by rewrite <-(assoc_L (++))|by apply prefix_cons|].
      intros rows Hrows. rewrite !fmap_cons. cbn [fst]. by rewrite (Hall rows Hrows).
Qed.

(** The rows gathered from a point of the loop on. *)
Lemma for_numbers_rows numbers svc results calls0 printed0 before :
  Forall2 (λ nd row, info nd.1 nd.2 = Ok row) before results →
  ∃ new,
    calls (for_numbers get self numbers svc results calls0 printed0)
      = calls0 ++ new ∧
    match returned (for_numbers get self numbers svc results calls0 printed0)
    with
    | Ok rows =>
        Forall2 (λ nd row, info nd.1 nd.2 = Ok row)
          (before ++ answered numbers new) rows
    | Raise e =>
        ∃ number data,
          last (answered numbers new) = Some (number, data) ∧
          info number data = Raise e
    end ∧
    ∀ number data e,
      (number, data) ∈ answered numbers new → info number data = Raise e →
      returned (for_numbers get self numbers svc results calls0 printed0)
        = Raise e.
Proof.
  revert svc results calls0 printed0 before.
  induction numbers as [|number numbers IH];
    intros svc results calls0 printed0 before Hinv.
  - exists []. simpl.
    destruct (finish_good svc results calls0 printed0) as [-> ->].
    rewrite !app_nil_r. split_and!; [done..|].
    by intros ??? ?%elem_of_nil.
  - cbn [for_numbers]. destruct (get svc _) as [[data|] svc'].
    + destruct (info number data) as [row|e] eqn:Hinfo.
      * destruct (IH svc' (results ++ [row])
                    (calls0 ++ [(request_for number, Json data)])
                    (printed0 ++ [Succeeded number])
                    (before ++ [(number, data)]))
          as (new & Hcalls & Hret & Hraise).
        { apply Forall2_app; [done|]. by constructor. }
        exists ((request_for number, Json data) :: new).
        rewrite Hcalls. split_and!; [by rewrite <-(assoc_L (++))| |].
        -- rewrite answered_json. destruct (returned _) as [rows|e].
           ++ by rewrite <-(assoc_L (++)) in Hret.
           ++ destruct Hret as (n & d & Hlast & He). exists n, d.
              split; [|done]. by rewrite last_cons, Hlast.
        -- intros n d e. rewrite answered_json.
           intros [[= -> ->]|Hin]%elem_of_cons; [congruence|].
           by apply Hraise.
      * exists [(request_for number, Json data)].
        rewrite answered_json, answered_nil. split_and!; [done| |].
        -- by exists number, data.
        -- intros n d e' [= -> ->]%list_elem_of_singleton He'. simpl. congruence.
    + destruct (IH svc' results
                  (calls0 ++ [(request_for number, RequestException)])
                  (printed0 ++ [Failed number]) before Hinv)
        as (new & Hcalls & Hret & Hraise).
      exists ((request_for number, RequestException) :: new).
      rewrite Hcalls, answered_failed.
      split_and!; [by rewrite <-(assoc_L (++))|done|done].
Qed.
End GbizFetchFacts.

Section GbizFetchExtras.
Import PyObject GbizFetch.
Context {service : Type} (get : service → request → reply * service).
Context (self : GbizInfoFetcher).

Local Abbreviation request_for number :=
  (Request (BASE_URL ++ number) (api_token self)).

Lemma fetch_data_raises svc numbers number data e :
  (number, data) ∈ answered numbers (calls (fetch_data get self svc numbers)) →
  info number data = Raise e →
  returned (fetch_data get self svc numbers) = Raise e.
Proof.
  unfold fetch_data.
  destruct (for_numbers_rows get self numbers svc [] []
              [Started (length numbers)] [] ltac:(constructor))
    as (new & Hcalls & _ & Hraise).
  rewrite Hcalls. apply Hraise.
Qed.

(** X18: the call asks the registry once per number, in the order given
    and never twice, each time at [BASE_URL] followed by the number and
    with the fetcher's token; when it returns, it has asked for every
    number. *)
Theorem X18_one_request_per_number svc numbers :
  let r := fetch_data get self svc numbers in
  (calls r).*1 `prefix_of` ((λ number, request_for number) <$> numbers) ∧
  ∀ rows,
    returned r = Ok rows →
    (calls r).*1 = (λ number, request_for number) <$> numbers.
Proof.
  cbn zeta. unfold fetch_data.
  destruct (for_numbers_calls get self numbers svc [] []
              [Started (length numbers)]) as (new & Hcalls & Hpre & Hall).
  by rewrite Hcalls.
Qed.

(** X19: when the call returns, the list of dicts it has handed to
    [pd.DataFrame] holds, in the order of the numbers, one dict per number
    the registry answered with a body: the dict [info] built from that
    body, whose keys are the eight names of [df[[...]]] in that order and
    whose first value is the number.  A number whose request failed has no
    dict.  (What pandas stores in the cells of the frame is not part of
    the statement.) *)
Theorem X19_rows_are_the_answered_numbers svc numbers rows :
  let r := fetch_data get self svc numbers in
  returned r = Ok rows →
  Forall2
    (λ nd row,
       info nd.1 nd.2 = Ok row ∧ row.*1 = columns ∧
       dict_lookup row corporate_number = Some (VStr nd.1))
    (answered numbers (calls r)) rows.
Proof.
  cbn zeta. unfold fetch_data.
  destruct (for_numbers_rows get self numbers svc [] []
              [Started (length numbers)] [] ltac:(constructor))
    as (new & Hcalls & Hret & _).
  rewrite Hcalls. intros Hrows. rewrite Hrows in Hret. simpl in Hret.
  eapply Forall2_impl; [exact Hret|].
  intros [n d] row Hinfo. split; [done|].
  by apply info_columns in Hinfo as (? & ?).
Qed.

(** X20: the call raises exactly when [info] raises on a body the
    registry answered with: only a [RequestException] is caught, so one
    body of an unexpected shape loses the rows of all the numbers. *)
Theorem X20_one_bad_body_fails_the_call svc numbers e :
  let r := fetch_data get self svc numbers in
  returned r = Raise e ↔
  ∃ number data,
    (number, data) ∈ answered numbers (calls r) ∧ info number data = Raise e.
Proof.
  cbn zeta. split.
  - unfold fetch_data.
    destruct (for_numbers_rows get self numbers svc [] []
                [Started (length numbers)] [] ltac:(constructor))
      as (new & Hcalls & Hret & _).
    rewrite Hcalls. intros Hraise. rewrite Hraise in Hret.
    destruct Hret as (n & d & Hlast & He). exists n, d. split; [|done].
    by apply last_Some_elem_of.
  - intros (n & d & Hin & He). by eapply fetch_data_raises.
Qed.

(** X21: a body without the key ["hojin-infos"] still gives a row: the
    number, and [None] in the seven other columns. *)
Theorem X21_body_without_records_gives_an_empty_row number entries :
  dict_lookup entries (str "hojin-infos") = None →
  info number (VDict entries) =
    Ok [(corporate_number, VStr number); (corporate_name, VNone);
        (location, VNone); (employees, VNone); (capital, VNone);
        (established, VNone); (website, VNone); (summary, VNone)].
Proof. intros Hnone. unfold info, get_or. by rewrite Hnone. Qed.

(** X22: a body whose ["hojin-infos"] is an empty list makes the whole
    call raise [IndexError], whatever was fetched before it. *)
Theorem X22_empty_record_list_raises svc numbers number entries :
  let r := fetch_data get self svc numbers in
  (number, VDict entries) ∈ answered numbers (calls r) →
  dict_lookup entries (str "hojin-infos") = Some (VList []) →
  returned r = Raise IndexError.
Proof.
  cbn zeta. intros Hin Hempty. eapply fetch_data_raises; [exact Hin|].
  unfold info, get_or. by rewrite Hempty.
Qed.

(** X23: a fetcher that [__init__] accepted has a token that is not
    empty, and that token goes with every request [fetch_data] makes. *)
Theorem X23_every_request_carries_the_token tok svc numbers call :
  __init__ tok = Ok self →
  call ∈ calls (fetch_data get self svc numbers) →
  tok ≠ [] ∧ token call.1 = tok.
Proof.
  unfold __init__. intros Hinit Hcall.
  destruct tok as [|c tok]; [done|].
  assert (api_token self = c :: tok) as Htok by (by injection Hinit as <-).
  split; [done|]. unfold fetch_data in Hcall.
  destruct (for_numbers_calls get self numbers svc [] []
              [Started (length numbers)]) as (new & Hcalls & [rest Hpre] & _).
  rewrite Hcalls in Hcall. simpl in Hcall.
  apply (list_elem_of_fmap_2 fst) in Hcall.
  assert (call.1 ∈ (λ number, request_for number) <$> numbers) as Hin
    by (rewrite Hpre; apply elem_of_app; by left).
  by apply list_elem_of_fmap in Hin as (number & -> & _).
Qed.
End GbizFetchExtras.

(** ** Closed instances of the further properties *)

Lemma X2_witness :
  GoogleSearch.extract (ucd:=latin1) (VInt 3) (str "a.0") = Ok VNone.
Proof. apply (X2_scalar_item_gives_none (ucd:=latin1)); reflexivity. Defined.

Lemma X4_witness :
  (isdigit (ucd:=latin1) (str "1") = true ∧
   too_long (ucd:=latin1) (str "01") = false) ∧
  GoogleSearch.for_keys (ucd:=latin1) (VList [VInt 10; VInt 20]) [str "01"]
    = GoogleSearch.for_keys (ucd:=latin1) (VList [VInt 10; VInt 20]) [str "1"].
Proof.
  split; [split; reflexivity|].
  exact (X4_leading_zero_is_ignored (ucd:=latin1) [VInt 10; VInt 20] (str "1")
           [] eq_refl eq_refl).
Defined.

Lemma X5_witness :
  GoogleSearch.extract (ucd:=latin1) (VDict [(str "a.b", VInt 1)]) (str "a.b")
    = Ok VNone.
Proof.
  apply (X5_dotted_keys_are_unreachable (ucd:=latin1)).
  constructor; [|constructor]. vm_compute. repeat constructor.
Defined.

Lemma X6_witness :
  GoogleSearch.extract (ucd:=latin1) Examples.digit_key (str "0")
    = get Examples.digit_key (str "0").
Proof.
  apply (X6_dot_free_path_is_get (ucd:=latin1)).
  change (str "0") with [48%N].
  apply not_elem_of_cons. split; [discriminate|apply not_elem_of_nil].
Defined.

Lemma X7_witness :
  Forall2
    (λ item row,
       Forall2
         (λ p kv, kv.1 = p ∧ GoogleSearch.extract (ucd:=latin1) item p = Ok kv.2)
         [str "x"] row)
    [Examples.x_one; VDict []]
    [[(str "x", VInt 1)]; [(str "x", VNone)]].
Proof.
  apply (X7_table_rows_and_columns (ucd:=latin1));
    [apply NoDup_singleton|reflexivity].
Defined.

Lemma X8_witness :
  Forall2
    (λ item row,
       NoDup row.*1 ∧ (∀ p, p ∈ row.*1 ↔ p ∈ [str "x"; str "x"]) ∧
       ∀ p v, (p, v) ∈ row → GoogleSearch.extract (ucd:=latin1) item p = Ok v)
    [Examples.x_one] [[(str "x", VInt 1)]].
Proof.
  apply (X8_repeated_paths_give_one_column (ucd:=latin1)). reflexivity.
Defined.

Lemma X11_witness :
  GoogleSearch.for_keys (ucd:=latin1) Examples.nested [str "a"; str "b"]
    = Gbiz._get_value_safely Examples.nested [str "a"; str "b"].
Proof.
  apply (X11_flatteners_agree_without_digit_keys (ucd:=latin1)).
  repeat constructor.
Defined.

Lemma X16_witness :
  let r := SearchFetch.get_google_search_results FetchExamples.two_pages
             (str "k") (str "c") 10 0%nat 3 in
  SearchFetch.calls r !! 0%nat
    = Some (SearchFetch.Request (str "k") (str "c") (str "lang_ja") 10 (VInt 1),
            SearchFetch.Response FetchExamples.page1) ∧
  ∀ req' rep',
    SearchFetch.calls r !! 1%nat = Some (req', rep') →
    ∃ response,
      SearchFetch.Response FetchExamples.page1 = SearchFetch.Response response ∧
      SearchFetch.page_next response = Ok (Some (SearchFetch.start req')).
Proof.
  cbn zeta. split; [reflexivity|].
  apply (X16_requests_follow_next_page FetchExamples.two_pages
           (str "k") (str "c") 10 0%nat 3 0%nat
           (SearchFetch.Request (str "k") (str "c") (str "lang_ja") 10 (VInt 1))
           (SearchFetch.Response FetchExamples.page1)).
  reflexivity.
Defined.

Lemma X17_witness :
  let r := SearchFetch.get_google_search_results FetchExamples.two_pages
             (str "k") (str "c") 10 0%nat 1 in
  let r' := SearchFetch.get_google_search_results FetchExamples.two_pages
              (str "k") (str "c") 10 0%nat 2 in
  SearchFetch.results r `prefix_of` SearchFetch.results r' ∧
  SearchFetch.calls r `prefix_of` SearchFetch.calls r' ∧
  (SearchFetch.printed r ≠ [] → r' = r).
Proof.
  apply (X17_more_pages_extend_the_results FetchExamples.two_pages
           (str "k") (str "c") 10 0%nat 1 2).
  lia.
Defined.

Lemma X19_witness :
  Forall2
    (λ nd row,
       GbizFetch.info nd.1 nd.2 = Ok row ∧ row.*1 = GbizFetch.columns ∧
       dict_lookup row GbizFetch.corporate_number = Some (VStr nd.1))
    (GbizFetch.answered [str "1"; str "2"]
       (GbizFetch.calls
          (GbizFetch.fetch_data FetchExamples.registry FetchExamples.fetcher
             0%nat [str "1"; str "2"])))
    [[(GbizFetch.corporate_number, VStr (str "1"));
      (GbizFetch.corporate_name, VStr (str "ACME"));
      (GbizFetch.location, VNone); (GbizFetch.employees, VNone);
      (GbizFetch.capital, VInt 1000); (GbizFetch.established, VNone);
      (GbizFetch.website, VNone); (GbizFetch.summary, VNone)]].
Proof.
  apply (X19_rows_are_the_answered_numbers FetchExamples.registry
           FetchExamples.fetcher 0%nat [str "1"; str "2"]).
  reflexivity.
Defined.

Lemma X22_witness :
  GbizFetch.returned
    (GbizFetch.fetch_data FetchExamples.registry FetchExamples.fetcher
       0%nat [str "1"; str "2"; str "3"]) = Raise IndexError.
Proof.
  apply (X22_empty_record_list_raises FetchExamples.registry
           FetchExamples.fetcher 0%nat [str "1"; str "2"; str "3"]
           (str "3") [(str "hojin-infos", VList [])]);
    [|reflexivity].
  vm_compute. repeat constructor.
Defined.

Lemma X23_witness :
  str "secret" ≠ [] ∧
  GbizFetch.token
    (GbizFetch.Request (GbizFetch.BASE_URL ++ str "1") (str "secret"),
     GbizFetch.Json FetchExamples.known).1 = str "secret".
Proof.
  apply (X23_every_request_carries_the_token FetchExamples.registry
           FetchExamples.fetcher (str "secret") 0%nat [str "1"]);
    [reflexivity|].
  vm_compute. repeat constructor.
Defined.

Lemma X21_witness :
  GbizFetch.info (str "1") (VDict [(str "message", VStr (str "none"))]) =
    Ok [(GbizFetch.corporate_number, VStr (str "1"));
        (GbizFetch.corporate_name, VNone); (GbizFetch.location, VNone);
        (GbizFetch.employees, VNone); (GbizFetch.capital, VNone);
        (GbizFetch.established, VNone); (GbizFetch.website, VNone);
        (GbizFetch.summary, VNone)].
Proof.
  apply (X21_body_without_records_gives_an_empty_row (str "1")
           [(str "message", VStr (str "none"))]).
  reflexivity.
Defined.

Lemma X24_witness :
  ∃ rows,
    GoogleSearch.preprocess_to_dataframe (ucd:=latin1)
      [Examples.x_one; Examples.x_list] [str "title"; str "snippet"] = Ok rows.
Proof.
  apply (X24_paths_without_digit_segments_never_raise (ucd:=latin1)).
  repeat constructor.
Defined.
